(** * discord-vscode: the presence extension of [src/extension.ts]

    A shallow embedding of the extension's module state, of its event
    handlers and of the presence builder, followed by the properties of
    the connection lifecycle, of the status indicator and of the
    file-detail extractor.

    Conventions of the embedding.
    - A JS string is a [string]; the patterns the code searches for are
      ASCII, so searching and replacing agree with the UTF-16 view.
    - The counters and the cursor positions are integral JS numbers and
      are carried by [Z]; the file size goes through binary64 arithmetic
      and is carried by a primitive [float].
    - The configuration holds values of the types its keys are declared
      with: strings for the templates, booleans, an integer threshold.
    - The module-level variables form the record [State]; a handler runs
      from one state to the next and records the calls it makes to its
      collaborators (editor host, IPC client, file system, timers) in a
      list of [Effect]s.
    - A handler runs to completion: the promise of an awaited call is
      settled before any other handler runs.
    - [activate] and the commands that enable and disable the extension
      compose the handlers below and are left out. *)

From Stdlib Require Import ZArith String Ascii List Bool Lia.
From Stdlib Require Import DecimalString Floats Uint63.
From stdpp Require Import gmap strings.

Local Open Scope Z_scope.

(** ** Strings *)

Module JsString.

(** [String.prototype.includes]. *)
Fixpoint includes (needle hay : string) : bool :=
  match hay with
  | EmptyString => String.prefix needle hay
  | String _ rest => String.prefix needle hay || includes needle rest
  end.

(** [String.prototype.startsWith] and [endsWith]. *)
Definition startsWith (s p : string) : bool := String.prefix p s.

Definition endsWith (s p : string) : bool :=
  let ls := String.length s in
  let lp := String.length p in
  (lp <=? ls)%nat && String.eqb (String.substring (ls - lp) lp s) p.

Fixpoint drop (n : nat) (s : string) : string :=
  match n, s with
  | S k, String _ rest => drop k rest
  | _, _ => s
  end.

(** The text before and after the first occurrence of [pat]. *)
Fixpoint cut (pat s : string) : option (string * string) :=
  if String.prefix pat s then Some (EmptyString, drop (String.length pat) s)
  else match s with
       | EmptyString => None
       | String c rest =>
           match cut pat rest with
           | Some (before, after) => Some (String c before, after)
           | None => None
           end
       end.

(** The replacement text of [replace] for a string pattern: [$$], [$&],
    [$`] and [$'] are expanded, every other character is copied. *)
Fixpoint substitution (matched before after repl : string) : string :=
  match repl with
  | EmptyString => EmptyString
  | String a r =>
      if Ascii.eqb a "$" then
        match r with
        | String c t =>
            if Ascii.eqb c "$" then String "$" (substitution matched before after t)
            else if Ascii.eqb c "&" then matched +:+ substitution matched before after t
            else if Ascii.eqb c "`" then before +:+ substitution matched before after t
            else if Ascii.eqb c "'" then after +:+ substitution matched before after t
            else String a (substitution matched before after r)
        | EmptyString => String a EmptyString
        end
      else String a (substitution matched before after r)
  end.

(** [s.replace(pat, repl)] with a string pattern: the first occurrence
    only. *)
Definition replace (pat repl s : string) : string :=
  match cut pat s with
  | Some (before, after) => before +:+ substitution pat before after repl +:+ after
  | None => s
  end.

Fixpoint split_go (sep : string) (skip : nat) (cur s : string) : list string :=
  match s with
  | EmptyString => [cur]
  | String c rest =>
      match skip with
      | S k => split_go sep k cur rest
      | O =>
          if String.prefix sep s
          then cur :: split_go sep (String.length sep - 1) EmptyString rest
          else split_go sep 0 (cur +:+ String c EmptyString) rest
      end
  end.

Fixpoint chars (s : string) : list string :=
  match s with
  | EmptyString => []
  | String c rest => String c EmptyString :: chars rest
  end.

(** [s.split(sep)]. *)
Definition split (sep s : string) : list string :=
  match sep with
  | EmptyString => chars s
  | _ => split_go sep 0 EmptyString s
  end.

(** [parts.join(sep)]. *)
Fixpoint join (sep : string) (parts : list string) : string :=
  match parts with
  | [] => EmptyString
  | [p] => p
  | p :: rest => p +:+ sep +:+ join sep rest
  end.

(** [s.length]: the UTF-16 code units of a text held as UTF-8 bytes. A
    continuation byte adds nothing, the first byte of a sequence of four
    stands for a surrogate pair, every other byte for one unit. *)
Fixpoint units16 (s : string) : nat :=
  match s with
  | EmptyString => O
  | String c rest =>
      let b := nat_of_ascii c in
      (if (b <? 128)%nat then 1
       else if (b <? 192)%nat then 0
       else if (b <? 240)%nat then 1
       else 2)%nat + units16 rest
  end.

(** [s.padEnd(n, fill)] for a one-character [fill] given as a string. *)
Fixpoint repeat_fill (n : nat) (fill : string) : string :=
  match n with
  | O => EmptyString
  | S k => fill +:+ repeat_fill k fill
  end.

Definition padEnd (n : nat) (fill s : string) : string :=
  s +:+ repeat_fill (n - units16 s) fill.

(** The decimal text of an integral number. *)
Definition ofZ (n : Z) : string := NilZero.string_of_int (Z.to_int n).

End JsString.

(** U+200B, zero width space, in UTF-8. *)
Definition zwsp : string :=
  String (ascii_of_nat 226) (String (ascii_of_nat 128) (String (ascii_of_nat 139) EmptyString)).

(** ** Values, errors and outcomes *)

(** The JS values that reach the activity object. [VEntry] is an entry
    [{ image }] of the table [knownExtentions]. *)
Inductive Value : Type :=
| VUndefined
| VNull
| VBool (b : bool)
| VNum (n : Z)
| VStr (s : string)
| VEntry (image : string).

Definition truthy (v : Value) : bool :=
  match v with
  | VUndefined | VNull => false
  | VBool b => b
  | VNum n => negb (n =? 0)
  | VStr s => negb (String.eqb s EmptyString)
  | VEntry _ => true
  end.

(** [a || b]. *)
Definition js_or (a b : Value) : Value := if truthy a then a else b.

(** [v.image] for a [v] that is neither null nor undefined. *)
Definition image_of (v : Value) : Value :=
  match v with
  | VEntry image => VStr image
  | _ => VUndefined
  end.

(** [String(v)], as applied to a replacement argument. *)
Definition toString (v : Value) : string :=
  match v with
  | VUndefined => "undefined"
  | VNull => "null"
  | VBool true => "true"
  | VBool false => "false"
  | VNum n => JsString.ofZ n
  | VStr s => s
  | VEntry _ => "[object Object]"
  end.

Record JsError : Type := { err_name : string; err_message : string }.

Definition TypeError (msg : string) : JsError :=
  {| err_name := "TypeError"; err_message := msg |}.

(** [Error.prototype.toString]. *)
Definition error_toString (e : JsError) : string :=
  if String.eqb (err_name e) EmptyString then err_message e
  else if String.eqb (err_message e) EmptyString then err_name e
  else err_name e +:+ ": " +:+ err_message e.

(** How a call ends: it returns, it throws (an async function rejects),
    or it leaves the model (a loop runs past the fuel, a number would be
    printed in exponent notation). *)
Inductive Outcome (A : Type) : Type :=
| Returned (a : A)
| Thrown (e : JsError)
| Unmodelled.

Arguments Returned {A} a.
Arguments Thrown {A} e.
Arguments Unmodelled {A}.

(** The result of a call to a collaborator: a value, or the error it
    throws. *)
Inductive Result (A : Type) : Type :=
| Ok (a : A)
| Err (e : JsError).

Arguments Ok {A} a.
Arguments Err {A} e.

(** How an awaited promise of a collaborator settles. *)
Inductive Promise : Type :=
| Fulfilled
| Rejected (e : JsError).

(** ** Configuration, editor host and module state *)

Inductive TemplateSlot : Type :=
| detailsDebugging | detailsEditing | detailsIdle
| lowerDetailsDebugging | lowerDetailsEditing | lowerDetailsIdle.

(** The section [discord] of the workspace configuration. *)
Record Config : Type := {
  enabled : bool;
  clientID : string;
  silent : bool;
  reconnectThreshold : Z;
  workspaceElapsedTime : bool;
  template : TemplateSlot -> string;
  lowerDetailsNotFound : string;
  largeImage : string;
  largeImageIdle : string;
  smallImage : string
}.

(** [window.activeTextEditor], with what the code reads of it. *)
Record TextEditor : Type := {
  fileName : string;
  languageId : string;
  lineCount : Z;
  activeLine : Z;
  activeCharacter : Z;
  (** name of [workspace.getWorkspaceFolder(document.uri)], if any *)
  workspaceFolder : option string;
  (** [workspace.asRelativePath(document.fileName)] *)
  relativePath : string
}.

(** What the handlers read from their collaborators while they run. *)
Record Host : Type := {
  activeTextEditor : option TextEditor;
  activeDebugSession : bool;
  appName : string;
  (** [new Date().getTime()] *)
  now : Z;
  (** [Number.prototype.toLocaleString] in the locale of the host *)
  toLocaleString : Z -> string;
  (** [String.prototype.toUpperCase] *)
  toUpperCase : string -> string;
  (** [basename], [parse(_).dir] and [sep] of the module [path] *)
  basename : string -> string;
  parse_dir : string -> string;
  sep : string;
  (** [statSync(_).size], or the error it throws *)
  statSync : string -> Result N;
  (** [new RegExp(source, flags).test(subject)] *)
  regexp_test : string -> string -> string -> Result bool;
  (** [data/languages.json]: the keys of [knownExtentions] in the order of
      [Object.keys] with the image of each, and [knownLanguages] *)
  knownExtentions : list (string * string);
  knownLanguages : list string;
  (** [this.largeImageKey] inside [setActivity], which is always called
      unbound: [None] when [this] is undefined (strict mode) and the
      read throws, [Some v] when [this] is the global object *)
  this_largeImageKey : option Value
}.

Record Client : Type := { transport : string }.

Record StatusBarItem : Type := { text : string; command : string; shown : bool }.

Inductive Timer : Type := Interval (ms : Z).

Record State : Type := {
  rpc : option Client;
  config : Config;
  reconnecting : bool;
  reconnectCounter : Z;
  lastKnownFile : option string;
  activity : option (gmap string Value);
  activityTimer : option Timer;
  statusBarIcon : option StatusBarItem
}.

Definition set_rpc (v : option Client) (s : State) : State :=
  {| rpc := v; config := config s; reconnecting := reconnecting s;
     reconnectCounter := reconnectCounter s; lastKnownFile := lastKnownFile s;
     activity := activity s; activityTimer := activityTimer s;
     statusBarIcon := statusBarIcon s |}.

Definition set_config (v : Config) (s : State) : State :=
  {| rpc := rpc s; config := v; reconnecting := reconnecting s;
     reconnectCounter := reconnectCounter s; lastKnownFile := lastKnownFile s;
     activity := activity s; activityTimer := activityTimer s;
     statusBarIcon := statusBarIcon s |}.

Definition set_reconnecting (v : bool) (s : State) : State :=
  {| rpc := rpc s; config := config s; reconnecting := v;
     reconnectCounter := reconnectCounter s; lastKnownFile := lastKnownFile s;
     activity := activity s; activityTimer := activityTimer s;
     statusBarIcon := statusBarIcon s |}.

Definition set_reconnectCounter (v : Z) (s : State) : State :=
  {| rpc := rpc s; config := config s; reconnecting := reconnecting s;
     reconnectCounter := v; lastKnownFile := lastKnownFile s;
     activity := activity s; activityTimer := activityTimer s;
     statusBarIcon := statusBarIcon s |}.

Definition set_lastKnownFile (v : option string) (s : State) : State :=
  {| rpc := rpc s; config := config s; reconnecting := reconnecting s;
     reconnectCounter := reconnectCounter s; lastKnownFile := v;
     activity := activity s; activityTimer := activityTimer s;
     statusBarIcon := statusBarIcon s |}.

Definition set_activity (v : option (gmap string Value)) (s : State) : State :=
  {| rpc := rpc s; config := config s; reconnecting := reconnecting s;
     reconnectCounter := reconnectCounter s; lastKnownFile := lastKnownFile s;
     activity := v; activityTimer := activityTimer s;
     statusBarIcon := statusBarIcon s |}.

Definition set_activityTimer (v : option Timer) (s : State) : State :=
  {| rpc := rpc s; config := config s; reconnecting := reconnecting s;
     reconnectCounter := reconnectCounter s; lastKnownFile := lastKnownFile s;
     activity := activity s; activityTimer := v;
     statusBarIcon := statusBarIcon s |}.

Definition set_statusBarIcon (v : option StatusBarItem) (s : State) : State :=
  {| rpc := rpc s; config := config s; reconnecting := reconnecting s;
     reconnectCounter := reconnectCounter s; lastKnownFile := lastKnownFile s;
     activity := activity s; activityTimer := activityTimer s;
     statusBarIcon := v |}.

(** The calls a handler makes to its collaborators. *)
Inductive Effect : Type :=
| ConsoleLog (msg : string)
| ConsoleError (msg : string)
| ShowInformationMessage (msg : string)
| ShowErrorMessage (msg : string)
| NewClient
| OnceReady (loud : bool)
| Login (clientId : string)
| OnceTransportClose
| RpcDestroy
| RpcSetActivity (payload : option (gmap string Value))
| SetTimeout (ms : Z)
| SetInterval (ms : Z)
| ClearInterval
| CreateStatusBarItem
| StatusBarShow
| StatusBarDispose
| StatSync (path : string).

(** ** The monad of the handlers *)

Definition M (A : Type) : Type := State -> Outcome A * State * list Effect.

Definition ret {A} (a : A) : M A := fun s => (Returned a, s, []).

Definition bind {A B} (m : M A) (f : A -> M B) : M B :=
  fun s =>
    match m s with
    | (Returned a, s1, fx1) =>
        match f a s1 with
        | (o, s2, fx2) => (o, s2, fx1 ++ fx2)
        end
    | (Thrown e, s1, fx1) => (Thrown e, s1, fx1)
    | (Unmodelled, s1, fx1) => (Unmodelled, s1, fx1)
    end.

Definition throw {A} (e : JsError) : M A := fun s => (Thrown e, s, []).
Definition get : M State := fun s => (Returned s, s, []).
Definition modify (f : State -> State) : M unit := fun s => (Returned tt, f s, []).
Definition emit (e : Effect) : M unit := fun s => (Returned tt, s, [e]).

(** [try { m } catch {}]. *)
Definition try_catch (m : M unit) : M unit :=
  fun s =>
    match m s with
    | (Thrown _, s1, fx1) => (Returned tt, s1, fx1)
    | r => r
    end.

(** The result of a call to a collaborator, and an outcome computed
    outside the monad. *)
Definition lift {A} (r : Result A) : M A :=
  fun s => (match r with Ok a => Returned a | Err e => Thrown e end, s, []).

Definition liftOutcome {A} (o : Outcome A) : M A := fun s => (o, s, []).

(** [await p]. *)
Definition await (p : Promise) : M unit :=
  fun s => (match p with Fulfilled => Returned tt | Rejected e => Thrown e end, s, []).

Declare Scope js_scope.
Delimit Scope js_scope with js.
Notation "x <- m ;; k" := (bind m (fun x => k))
  (at level 100, m at next level, k at level 200, right associativity) : js_scope.
Notation "m ;; k" := (bind m (fun _ => k))
  (at level 100, k at level 200, right associativity) : js_scope.
Local Open Scope js_scope.

Definition final {A} (r : Outcome A * State * list Effect) : State := snd (fst r).
Definition outcome {A} (r : Outcome A * State * list Effect) : Outcome A := fst (fst r).
Definition effects {A} (r : Outcome A * State * list Effect) : list Effect := snd r.

(** ** File size: binary64 arithmetic *)

Module Number.

(** The value of a finite float as a fraction [num / den]. *)
Definition fraction (x : float) : option (bool * Z * Z) :=
  match Prim2SF x with
  | S754_zero s => Some (s, 0, 1)
  | S754_finite s m e =>
      if 0 <=? e then Some (s, Z.pos m * 2 ^ e, 1) else Some (s, Z.pos m, 2 ^ (- e))
  | _ => None
  end.

(** Hundredths [n] written with two decimals. *)
Definition two_decimals (n : Z) : string :=
  JsString.ofZ (n / 100) +:+ "." +:+
  (if n mod 100 <? 10 then "0" else "") +:+ JsString.ofZ (n mod 100).

(** [x.toFixed(2)]: the integer [n] for which [n / 100] is closest to
    [x], the larger one on a tie; [None] from 10^21 on, where the text
    is in exponent notation. *)
Definition toFixed2 (x : float) : option string :=
  match Prim2SF x with
  | S754_nan => Some "NaN"
  | S754_infinity s => Some (if s then "-Infinity" else "Infinity")
  | _ =>
      match fraction x with
      | Some (s, num, den) =>
          if 10 ^ 21 * den <=? num then None
          else Some ((if s && negb (num =? 0) then "-" else "") +:+
                     two_decimals ((2 * 100 * num + den) / (2 * den)))
      | None => None
      end
  end.

(** The text of a number that is integral and below 10^21 in absolute
    value; [None] for the others. *)
Definition integerText (x : float) : option string :=
  match fraction x with
  | Some (s, num, den) =>
      if (num mod den =? 0) && (num / den <? 10 ^ 21)
      then Some (JsString.ofZ (if s then - (num / den) else num / den))
      else None
  | None => None
  end.

(** The number a size of the file system converts to; sizes are below
    2^63. *)
Definition ofN (n : N) : float := PrimFloat.of_uint63 (Uint63.of_Z (Z.of_N n)).

End Number.

Definition sizes : list string := [" bytes"; "kb"; "mb"; "gb"; "tb"].

(** [while (size > 1000) { currentDivision++; size = size / 1000; }];
    no finite number needs more than 103 rounds. *)
Fixpoint divide (fuel : nat) (size : float) (currentDivision : nat) : option (float * nat) :=
  if PrimFloat.ltb 1000 size then
    match fuel with
    | O => None
    | S k => divide k (PrimFloat.div size 1000) (S currentDivision)
    end
  else Some (size, currentDivision).

Definition unit_suffix (currentDivision : nat) : string :=
  match sizes !! currentDivision with
  | Some u => u
  | None => "undefined"
  end.

(** The text [getFileDetails] builds from [statSync(_).size]. *)
Definition formatSize (bytes : N) : Outcome string :=
  let size := Number.ofN bytes in
  let originalSize := size in
  if PrimFloat.ltb 1000 originalSize then
    match divide 128 (PrimFloat.div size 1000) 1 with
    | Some (size, currentDivision) =>
        match Number.toFixed2 size with
        | Some t => Returned (t +:+ unit_suffix currentDivision)
        | None => Unmodelled
        end
    | None => Unmodelled
    end
  else
    match Number.integerText size with
    | Some t => Returned (t +:+ unit_suffix 0)
    | None => Unmodelled
    end.

(** ** The extension *)

Module FileDetail.
Record t : Type := {
  size : option string;
  totalLines : option string;
  currentLine : option string;
  currentColumn : option string
}.

Definition empty : t :=
  {| size := None; totalLines := None; currentLine := None; currentColumn := None |}.
End FileDetail.

(** The [key.match] of [setActivity]: the source and the flags of a key
    written as a regular expression literal, a slash, any text without a
    line terminator, the last slash, and one or more of [m], [g], [i],
    [y] up to the end. *)
Module RegexKey.

(** The text before and after the last [c] of [s]. *)
Fixpoint cut_last (c : ascii) (s : string) : option (string * string) :=
  match s with
  | EmptyString => None
  | String a rest =>
      match cut_last c rest with
      | Some (before, after) => Some (String a before, after)
      | None => if Ascii.eqb a c then Some (EmptyString, rest) else None
      end
  end.

Fixpoint all_flags (s : string) : bool :=
  match s with
  | EmptyString => true
  | String a rest =>
      (Ascii.eqb a "m" || Ascii.eqb a "g" || Ascii.eqb a "i" || Ascii.eqb a "y")
      && all_flags rest
  end.

(** Line feed, carriage return, U+2028 and U+2029 are not matched by [.]. *)
Definition has_line_terminator (s : string) : bool :=
  JsString.includes (String (ascii_of_nat 10) EmptyString) s
  || JsString.includes (String (ascii_of_nat 13) EmptyString) s
  || JsString.includes
       (String (ascii_of_nat 226) (String (ascii_of_nat 128) (String (ascii_of_nat 168) EmptyString))) s
  || JsString.includes
       (String (ascii_of_nat 226) (String (ascii_of_nat 128) (String (ascii_of_nat 169) EmptyString))) s.

Definition parse (key : string) : option (string * string) :=
  match key with
  | String a rest =>
      if Ascii.eqb a "/" then
        match cut_last "/" rest with
        | Some (source, flags) =>
            if negb (String.eqb flags EmptyString) && all_flags flags
               && negb (has_line_terminator source)
            then Some (source, flags) else None
        | None => None
        end
      else None
  | EmptyString => None
  end.

End RegexKey.

Section Extension.

Variable host : Host.

(** [window.activeTextEditor.document], read without a check. *)
Definition document : M TextEditor :=
  match activeTextEditor host with
  | Some ed => ret ed
  | None => throw (TypeError "Cannot read property 'document' of undefined")
  end.

Definition getFileDetails (rawString : string) : M FileDetail.t :=
  let obj := FileDetail.empty in
  if String.eqb rawString EmptyString then ret obj else
  obj <- (if JsString.includes "{totallines}" rawString then
            ed <- document ;;
            ret {| FileDetail.size := FileDetail.size obj;
                   FileDetail.totalLines := Some (toLocaleString host (lineCount ed));
                   FileDetail.currentLine := FileDetail.currentLine obj;
                   FileDetail.currentColumn := FileDetail.currentColumn obj |}
          else ret obj) ;;
  obj <- (if JsString.includes "{currentline}" rawString then
            ed <- document ;;
            ret {| FileDetail.size := FileDetail.size obj;
                   FileDetail.totalLines := FileDetail.totalLines obj;
                   FileDetail.currentLine := Some (toLocaleString host (activeLine ed + 1));
                   FileDetail.currentColumn := FileDetail.currentColumn obj |}
          else ret obj) ;;
  obj <- (if JsString.includes "{currentcolumn}" rawString then
            ed <- document ;;
            ret {| FileDetail.size := FileDetail.size obj;
                   FileDetail.totalLines := FileDetail.totalLines obj;
                   FileDetail.currentLine := FileDetail.currentLine obj;
                   FileDetail.currentColumn := Some (toLocaleString host (activeCharacter ed + 1)) |}
          else ret obj) ;;
  if JsString.includes "{filesize}" rawString then
    ed <- document ;;
    emit (StatSync (fileName ed)) ;;
    bytes <- lift (statSync host (fileName ed)) ;;
    formatted <- liftOutcome (formatSize bytes) ;;
    ret {| FileDetail.size := Some formatted;
           FileDetail.totalLines := FileDetail.totalLines obj;
           FileDetail.currentLine := FileDetail.currentLine obj;
           FileDetail.currentColumn := FileDetail.currentColumn obj |}
  else ret obj.

(** [largeImageKey ? largeImageKey.image || largeImageKey : 'txt']. *)
Definition langLabel (largeImageKey : Value) : Value :=
  if truthy largeImageKey then js_or (image_of largeImageKey) largeImageKey
  else VStr "txt".

(** [largeImageKey ? (largeImageKey.image || largeImageKey).toUpperCase() : 'TXT']. *)
Definition langLabelUpper (largeImageKey : Value) : M string :=
  if truthy largeImageKey then
    match js_or (image_of largeImageKey) largeImageKey with
    | VStr s => ret (toUpperCase host s)
    | _ => throw (TypeError "(intermediate value).toUpperCase is not a function")
    end
  else ret "TXT".

(** [if (fact) rawString = rawString.replace(placeholder, fact)]. *)
Definition replace_fact (placeholder : string) (fact : option string) (rawString : string) : string :=
  match fact with
  | Some f => if String.eqb f EmptyString then rawString
              else JsString.replace placeholder f rawString
  | None => rawString
  end.

Definition last_of (parts : list string) : Value :=
  match List.last (List.map Some parts) None with
  | Some p => VStr p
  | None => VUndefined
  end.

Definition generateDetails (debugging editing idling : TemplateSlot) (largeImageKey : Value)
  : M string :=
  s <- get ;;
  let emptySpaces := zwsp +:+ zwsp in
  let string := JsString.replace "{null}" emptySpaces (template (config s) idling) in
  match activeTextEditor host with
  | None => ret string
  | Some ed =>
      let fileName_ := basename host (fileName ed) in
      let dirName := last_of (JsString.split (sep host) (parse_dir host (fileName ed))) in
      let checkState := match workspaceFolder ed with Some _ => true | None => false end in
      let fullDirName :=
        match workspaceFolder ed with
        | Some name =>
            let relative := JsString.split (sep host) (relativePath ed) in
            VStr (name +:+ sep host +:+ JsString.join (sep host) (List.removelast relative))
        | None => VNull
        end in
      (* the two branches of the source differ in the slot only *)
      let slot := if activeDebugSession host then debugging else editing in
      let rawString := template (config s) slot in
      facts <- getFileDetails rawString ;;
      upper <- langLabelUpper largeImageKey ;;
      let rawString :=
        JsString.replace "{LANG}" upper
          (JsString.replace "{lang}" (toString (langLabel largeImageKey))
            (JsString.replace "{workspace}"
               (match workspaceFolder ed with
                | Some name => name
                | None => JsString.replace "{null}" emptySpaces (lowerDetailsNotFound (config s))
                end)
              (JsString.replace "{fulldirname}" (toString fullDirName)
                (JsString.replace "{dirname}" (toString dirName)
                  (JsString.replace "{filename}" fileName_
                    (JsString.replace "{null}" emptySpaces rawString)))))) in
      let rawString := replace_fact "{totallines}" (FileDetail.totalLines facts) rawString in
      let rawString := replace_fact "{filesize}" (FileDetail.size facts) rawString in
      let rawString := replace_fact "{currentline}" (FileDetail.currentLine facts) rawString in
      let rawString := replace_fact "{currentcolumn}" (FileDetail.currentColumn facts) rawString in
      ret rawString
  end.

(** *** Presence state builder *)

(** The predicate of [Object.keys(knownExtentions).find]. *)
Definition key_matches (fileName_ key : string) : Result bool :=
  if JsString.startsWith key "." && JsString.endsWith fileName_ key then Ok true
  else match RegexKey.parse key with
       | None => Ok false
       | Some (source, flags) => regexp_test host source flags fileName_
       end.

Fixpoint find_key (fileName_ : string) (keys : list (string * string)) : Result (option string) :=
  match keys with
  | [] => Ok None
  | (key, _) :: rest =>
      match key_matches fileName_ key with
      | Ok true => Ok (Some key)
      | Ok false => find_key fileName_ rest
      | Err e => Err e
      end
  end.

(** [knownExtentions[key]]; an undefined key reads the property
    ["undefined"]. *)
Definition extension_entry (key : option string) : Value :=
  let name := match key with Some k => k | None => "undefined" end in
  match List.find (fun entry => String.eqb (fst entry) name) (knownExtentions host) with
  | Some (_, image) => VEntry image
  | None => VUndefined
  end.

Definition resolveLargeImageKey : M Value :=
  match activeTextEditor host with
  | Some ed =>
      found <- lift (find_key (basename host (fileName ed)) (knownExtentions host)) ;;
      ret (js_or (extension_entry found)
                 (if List.existsb (String.eqb (languageId ed)) (knownLanguages host)
                  then VStr (languageId ed) else VNull))
  | None => ret (VStr "vscode-big")
  end.

Definition smallImageKey : Value :=
  if activeDebugSession host then VStr "debug"
  else if JsString.includes "Insiders" (appName host) then VStr "vscode-insiders"
  else VStr "vscode".

(** [this.largeImageKey]. *)
Definition this_key : M Value :=
  match this_largeImageKey host with
  | Some v => ret v
  | None => throw (TypeError "Cannot read property 'largeImageKey' of undefined")
  end.

(** The condition of the first branch of [setActivity]. *)
Definition sameFile (s : State) : bool :=
  match activeTextEditor host, lastKnownFile s with
  | Some ed, Some known => String.eqb (fileName ed) known
  | _, _ => false
  end.

(** The first branch: [activity = { ...activity, details, state,
    smallImageKey }]. *)
Definition partialUpdate : M unit :=
  key <- this_key ;;
  details <- generateDetails detailsDebugging detailsEditing detailsIdle key ;;
  key <- this_key ;;
  state <- generateDetails lowerDetailsDebugging lowerDetailsEditing lowerDetailsIdle key ;;
  modify (fun s =>
    set_activity
      (Some (<["smallImageKey" := smallImageKey]>
              (<["state" := VStr state]>
                (<["details" := VStr details]>
                  (match activity s with Some a => a | None => ∅ end))))) s).

(** The rest of [setActivity], from the assignment of [lastKnownFile]. *)
Definition fullRebuild (workspaceElapsedTime_ : bool) : M unit :=
  modify (set_lastKnownFile
            (match activeTextEditor host with Some ed => Some (fileName ed) | None => None end)) ;;
  largeImageKey <- resolveLargeImageKey ;;
  s <- get ;;
  let previousTimestamp :=
    match activity s with
    | Some a => match a !! "startTimestamp" with Some v => v | None => VUndefined end
    | None => VNull
    end in
  details <- generateDetails detailsDebugging detailsEditing detailsIdle largeImageKey ;;
  state <- generateDetails lowerDetailsDebugging lowerDetailsEditing lowerDetailsIdle largeImageKey ;;
  let startTimestamp :=
    match activeTextEditor host with
    | Some _ => if truthy previousTimestamp && workspaceElapsedTime_
                then previousTimestamp else VNum (now host)
    | None => VNull
    end in
  largeImageText <-
    match activeTextEditor host with
    | Some ed =>
        upper <- langLabelUpper largeImageKey ;;
        let replaced :=
          JsString.replace "{LANG}" upper
            (JsString.replace "{lang}" (toString (langLabel largeImageKey))
               (largeImage (config s))) in
        ret (if String.eqb replaced EmptyString
             then JsString.padEnd 2 zwsp (languageId ed) else replaced)
    | None => ret (largeImageIdle (config s))
    end ;;
  modify (set_activity
    (Some (<["instance" := VBool false]>
            (<["smallImageText" :=
                 VStr (JsString.replace "{appname}" (appName host) (smallImage (config s)))]>
              (<["smallImageKey" := smallImageKey]>
                (<["largeImageText" := VStr largeImageText]>
                  (<["largeImageKey" := langLabel largeImageKey]>
                    (<["startTimestamp" := startTimestamp]>
                      (<["state" := VStr state]>
                        (<["details" := VStr details]> ∅)))))))))).

Definition setActivity (workspaceElapsedTime_ : bool) : M unit :=
  s <- get ;;
  match rpc s with
  | None => ret tt
  | Some _ => if sameFile s then partialUpdate else fullRebuild workspaceElapsedTime_
  end.

End Extension.

(** ** Connection lifecycle and status indicator *)

Definition reconnectingText (attempts : Z) : string :=
  "$(issue-reopened) Reconnecting: " +:+ JsString.ofZ attempts +:+ " attempt"
  +:+ (if attempts =? 1 then "" else "s") +:+ " left".

Definition reconnectText : string := "$(plug) Reconnect to Discord".

Definition initRPC (clientID_ : string) (loud : bool) : M unit :=
  modify (set_rpc (Some {| transport := "ipc" |})) ;;
  emit NewClient ;;
  emit (OnceReady loud) ;;
  emit (Login clientID_).

Definition createButton (isReconnecting : bool) : M unit :=
  s <- get ;;
  let attempts := reconnectThreshold (config s) - reconnectCounter s in
  let text_ := if isReconnecting then reconnectingText attempts else reconnectText in
  let command_ := if isReconnecting then "" else "discord.reconnect" in
  match statusBarIcon s with
  | None =>
      emit CreateStatusBarItem ;;
      modify (set_statusBarIcon (Some {| text := text_; command := command_; shown := false |})) ;;
      emit StatusBarShow ;;
      modify (set_statusBarIcon (Some {| text := text_; command := command_; shown := true |}))
  | Some icon =>
      modify (set_statusBarIcon (Some {| text := text_; command := command_; shown := shown icon |}))
  end.

(** [destroyed] is how the promise of [rpc.destroy()] settles, should the
    call be made. *)
Definition destroyRPC (destroyed : Promise) : M unit :=
  s <- get ;;
  match rpc s with
  | None => ret tt
  | Some _ =>
      modify (set_reconnecting false) ;;
      (match activityTimer s with Some _ => emit ClearInterval | None => ret tt end) ;;
      modify (set_activityTimer None) ;;
      emit RpcDestroy ;;
      await destroyed ;;
      modify (set_rpc None) ;;
      modify (set_lastKnownFile None)
  end.

Definition deactivate (destroyed : Promise) : M unit := destroyRPC destroyed.

(** [rpc.setActivity(activity).catch(err => console.error(...))];
    [sent] is how the promise of the call settles. *)
Definition sendActivity (sent : Promise) : M unit :=
  s <- get ;;
  match rpc s with
  | None => throw (TypeError "Cannot read property 'setActivity' of null")
  | Some _ =>
      emit (RpcSetActivity (activity s)) ;;
      match sent with
      | Rejected err => emit (ConsoleError ("[Discord Presence]: " +:+ error_toString err))
      | Fulfilled => ret tt
      end
  end.

(** The handler of a rejected [rpc.login]. *)
Definition onLoginError (error : JsError) (destroyed : Promise) : M unit :=
  emit (ConsoleError ("[Discord Presence]: " +:+ error_toString error)) ;;
  s <- get ;;
  returned <-
    (if reconnecting s then
       if reconnectThreshold (config s) <=? reconnectCounter s then
         createButton false ;;
         destroyRPC destroyed ;;
         ret false
       else
         modify (set_reconnectCounter (reconnectCounter s + 1)) ;;
         createButton true ;;
         initRPC (clientID (config s)) false ;;
         ret true
     else ret false) ;;
  if (returned : bool) then ret tt else
  s <- get ;;
  if silent (config s) then ret tt else
  (if JsString.includes "ENOENT" (err_message error)
   then emit (ShowErrorMessage "No Discord Client detected!")
   else emit (ShowErrorMessage ("Couldn't connect to Discord via RPC: " +:+ error_toString error))) ;;
  createButton false.

(** The command [discord.reconnect]. *)
Definition reconnectCommand (destroyed : Promise) : M unit :=
  s <- get ;;
  (match rpc s with
   | Some _ => try_catch (destroyRPC destroyed)
   | None => ret tt
   end) ;;
  initRPC (clientID (config s)) true ;;
  (if silent (config s) then ret tt
   else emit (ShowInformationMessage "Reconnecting to Discord RPC")) ;;
  s <- get ;;
  match statusBarIcon s with
  | Some icon =>
      modify (set_statusBarIcon
                (Some {| text := "$(pulse) Reconnecting"; command := command icon; shown := shown icon |}))
  | None => ret tt
  end.

Section Handlers.

Variable host : Host.

(** The listener of the transport's [close], registered by [onReady]. *)
Definition onClose (destroyed : Promise) : M unit :=
  s <- get ;;
  if negb (enabled (config s)) then ret tt else
  destroyRPC destroyed ;;
  modify (set_reconnecting true) ;;
  initRPC (clientID (config s)) false ;;
  createButton true.

(** The listener of the client's [ready], registered by [initRPC]. *)
Definition onReady (loud : bool) : M unit :=
  emit (ConsoleLog "[Discord Presence]: Successfully connected to Discord") ;;
  s <- get ;;
  (if loud && negb (silent (config s))
   then emit (ShowInformationMessage "Successfully reconnected to Discord RPC")
   else ret tt) ;;
  (match statusBarIcon s with
   | Some _ => emit StatusBarDispose ;; modify (set_statusBarIcon None)
   | None => ret tt
   end) ;;
  modify (set_reconnecting false) ;;
  (match activityTimer s with
   | Some _ => emit ClearInterval ;; modify (set_activityTimer None)
   | None => ret tt
   end) ;;
  modify (set_reconnectCounter 0) ;;
  setActivity host false ;;
  emit (SetTimeout 500) ;;
  current <- get ;;
  (match rpc current with
   | Some _ => emit OnceTransportClose
   | None => throw (TypeError "Cannot read property 'transport' of null")
   end) ;;
  emit (SetInterval 15000) ;;
  modify (set_activityTimer (Some (Interval 15000))).

(** The callback of the timeout set by [onReady]. *)
Definition onActivityTimeout (sent : Promise) : M unit := sendActivity sent.

(** The callback of [activityTimer]; [fresh] is the configuration that
    [workspace.getConfiguration] returns. *)
Definition onActivityTimer (fresh : Config) (sent : Promise) : M unit :=
  modify (set_config fresh) ;;
  setActivity host (workspaceElapsedTime fresh) ;;
  sendActivity sent.

End Handlers.

(** What the event loop delivers to the extension. *)
Inductive Event : Type :=
| LoginFailed (error : JsError) (destroyed : Promise)
| ClientReady (loud : bool)
| TransportClosed (destroyed : Promise)
| ActivityTimeout (sent : Promise)
| TimerTick (fresh : Config) (sent : Promise)
| ReconnectCommand (destroyed : Promise).

Definition handle (host : Host) (ev : Event) : M unit :=
  match ev with
  | LoginFailed error destroyed => onLoginError error destroyed
  | ClientReady loud => onReady host loud
  | TransportClosed destroyed => onClose destroyed
  | ActivityTimeout sent => onActivityTimeout sent
  | TimerTick fresh sent => onActivityTimer host fresh sent
  | ReconnectCommand destroyed => reconnectCommand destroyed
  end.

(** A run of the event loop: each event with the host as it is when the
    event is handled. An error that escapes a handler is reported by the
    host and the loop goes on. *)
Fixpoint run (events : list (Host * Event)) (s : State) : State * list Effect :=
  match events with
  | [] => (s, [])
  | (host, ev) :: rest =>
      match handle host ev s with
      | (_, s1, fx1) =>
          match run rest s1 with
          | (s2, fx2) => (s2, fx1 ++ fx2)
          end
      end
  end.

Definition isLogin (e : Effect) : bool :=
  match e with Login _ => true | _ => false end.

Definition isErrorNotice (e : Effect) : bool :=
  match e with ShowErrorMessage _ => true | _ => false end.

Definition isStatSync (e : Effect) : bool :=
  match e with StatSync _ => true | _ => false end.

(** The number of [rpc.login] calls among the effects. *)
Definition logins (fx : list Effect) : nat := List.length (List.filter isLogin fx).

(** ** Observations on runs *)

(** The number of [statSync] calls among the effects. *)
Definition statCalls (fx : list Effect) : nat := List.length (List.filter isStatSync fx).

Definition isInformation (e : Effect) : bool :=
  match e with ShowInformationMessage _ => true | _ => false end.

(** The error notices among the effects. *)
Definition errorNotices (fx : list Effect) : list Effect := List.filter isErrorNotice fx.

(** The notice of a login failure. *)
Definition failureNotice (error : JsError) : Effect :=
  if JsString.includes "ENOENT" (err_message error)
  then ShowErrorMessage "No Discord Client detected!"
  else ShowErrorMessage ("Couldn't connect to Discord via RPC: " +:+ error_toString error).

(** A property of the activity object, undefined while there is none. *)
Definition field (k : string) (s : State) : option Value :=
  match activity s with
  | Some a => a !! k
  | None => None
  end.

(** A login failure as the event loop delivers it: the host at that
    time, the error, and how the teardown settles if it is reached. *)
Definition loginFailed (f : Host * JsError * Promise) : Host * Event :=
  (fst (fst f), LoginFailed (snd (fst f)) (snd f)).

(** ** Frames *)

(** A handler respects a preorder [R] on states when every run of it,
    however it ends, leaves a state related to the one it started in. *)
Definition respects {A} (R : State -> State -> Prop) (m : M A) : Prop :=
  forall s, R s (final (m s)).

(** The handlers that read the state and leave it as it is. *)
Definition stateless {A} (m : M A) : Prop := respects eq m.

(** The variables of the connection lifecycle are the same in both
    states. *)
Definition lifecycle_frame (s s' : State) : Prop :=
  rpc s' = rpc s /\ config s' = config s /\ reconnecting s' = reconnecting s
  /\ reconnectCounter s' = reconnectCounter s /\ activityTimer s' = activityTimer s
  /\ statusBarIcon s' = statusBarIcon s.

(** Besides, [lastKnownFile] is the same and so is every property of the
    activity other than [details], [state] and [smallImageKey]. *)
Definition partial_frame (s s' : State) : Prop :=
  lifecycle_frame s s'
  /\ lastKnownFile s' = lastKnownFile s
  /\ forall k, k <> "details" -> k <> "state" -> k <> "smallImageKey" ->
               field k s' = field k s.

(** ** Concrete hosts and states *)

Module Sample.

Definition settings : Config :=
  {| enabled := true;
     clientID := "383226320970055681";
     silent := false;
     reconnectThreshold := 3;
     workspaceElapsedTime := false;
     template := fun slot =>
       match slot with
       | detailsDebugging => "Debugging {filename}"
       | detailsEditing => "Editing {filename}"
       | detailsIdle => "Idling"
       | lowerDetailsDebugging => "Debugging: {workspace}"
       | lowerDetailsEditing => "Workspace: {workspace}"
       | lowerDetailsIdle => "Idling"
       end;
     lowerDetailsNotFound := "No workspace found.";
     largeImage := "Editing a {LANG} file";
     largeImageIdle := "Idling";
     smallImage := "{appname}" |}.

Definition quiet : Config :=
  {| enabled := true;
     clientID := clientID settings;
     silent := true;
     reconnectThreshold := 3;
     workspaceElapsedTime := false;
     template := template settings;
     lowerDetailsNotFound := lowerDetailsNotFound settings;
     largeImage := largeImage settings;
     largeImageIdle := largeImageIdle settings;
     smallImage := smallImage settings |}.

Definition upper_ascii (c : ascii) : ascii :=
  let n := nat_of_ascii c in
  if ((97 <=? n) && (n <=? 122))%nat then ascii_of_nat (n - 32) else c.

Fixpoint upper (s : string) : string :=
  match s with
  | EmptyString => EmptyString
  | String c rest => String (upper_ascii c) (upper rest)
  end.

Definition mainTs : TextEditor :=
  {| fileName := "/home/u/project/src/main.ts";
     languageId := "typescript";
     lineCount := 120;
     activeLine := 9;
     activeCharacter := 4;
     workspaceFolder := Some "project";
     relativePath := "src/main.ts" |}.

(** The digits of a number, last digit first, with a comma after every
    third digit that has another one before it; [k] digits of the current
    group are already out. *)
Fixpoint commas (k : nat) (digits : list ascii) : list ascii :=
  match digits with
  | [] => []
  | d :: rest =>
      match k, rest with
      | 2%nat, _ :: _ => d :: ","%char :: commas 0 rest
      | _, _ => d :: commas (S k) rest
      end
  end.

(** [Number.prototype.toLocaleString] of an integer in the en-US locale:
    [1234] prints as [1,234]. *)
Definition enUS (n : Z) : string :=
  let grouped m :=
    string_of_list_ascii
      (List.rev (commas 0 (List.rev (list_ascii_of_string (JsString.ofZ m))))) in
  if n <? 0 then "-" +:+ grouped (- n) else grouped n.

(** A POSIX host; [strict] tells whether the module runs in strict mode.
    The compiler emits a module in strict mode, where [this] of a plain
    call is undefined; outside strict mode it would be the global object,
    whose [largeImageKey] is undefined. *)
Definition posix (focused : option TextEditor) (app : string) (clock : Z) (strict : bool) : Host :=
  {| activeTextEditor := focused;
     activeDebugSession := false;
     appName := app;
     now := clock;
     toLocaleString := enUS;
     toUpperCase := upper;
     basename := fun p => match List.last (List.map Some (JsString.split "/" p)) None with
                          | Some b => b
                          | None => EmptyString
                          end;
     parse_dir := fun p => JsString.join "/" (List.removelast (JsString.split "/" p));
     sep := "/";
     statSync := fun _ => Ok 1500000%N;
     regexp_test := fun _ _ _ => Ok false;
     knownExtentions := [(".ts", "typescript"); (".rs", "rust")];
     knownLanguages := ["typescript"; "rust"; "python"];
     this_largeImageKey := if strict then None else Some VUndefined |}.

Definition editing : Host := posix (Some mainTs) "Visual Studio Code" 2000 true.

Definition idle : Host := posix None "Visual Studio Code" 2000 true.
Definition idleInsiders : Host := posix None "Visual Studio Code - Insiders" 2000 true.

(** Before any client is created. *)
Definition disconnected : State :=
  {| rpc := None; config := settings; reconnecting := false; reconnectCounter := 0;
     lastKnownFile := None; activity := None; activityTimer := None;
     statusBarIcon := None |}.

Definition ipc : Client := {| transport := "ipc" |}.

(** A session that is ready and has published [main.ts] at time 1000. *)
Definition ready : State :=
  {| rpc := Some ipc; config := settings; reconnecting := false; reconnectCounter := 0;
     lastKnownFile := Some "/home/u/project/src/main.ts";
     activity := Some (<["instance" := VBool false]>
                        (<["smallImageText" := VStr "Visual Studio Code"]>
                          (<["smallImageKey" := VStr "vscode"]>
                            (<["largeImageText" := VStr "Editing a TYPESCRIPT file"]>
                              (<["largeImageKey" := VStr "typescript"]>
                                (<["startTimestamp" := VNum 1000]>
                                  (<["state" := VStr "Workspace: project"]>
                                    (<["details" := VStr "Editing main.ts"]> ∅))))))));
     activityTimer := Some (Interval 15000);
     statusBarIcon := None |}.

(** The first login is pending. *)
Definition connecting : State := set_rpc (Some ipc) disconnected.

Definition readyQuiet : State := set_config quiet ready.

(** A reconnect sequence that has just begun: the transport closed and
    the first login is pending. *)
Definition reconnect_begun : State :=
  {| rpc := Some ipc; config := settings; reconnecting := true; reconnectCounter := 0;
     lastKnownFile := None; activity := activity ready; activityTimer := None;
     statusBarIcon := Some {| text := reconnectingText 3; command := ""; shown := true |} |}.

Definition enoent : JsError :=
  {| err_name := "Error"; err_message := "connect ENOENT /run/user/1000/discord-ipc-0" |}.

Definition refused : JsError :=
  {| err_name := "Error"; err_message := "Could not connect" |}.

(** The transport closes on a ready session and the three logins that
    follow fail for want of a client. *)
Definition three_failures : list (Host * Event) :=
  [ (editing, TransportClosed Fulfilled);
    (editing, LoginFailed enoent Fulfilled);
    (editing, LoginFailed enoent Fulfilled);
    (editing, LoginFailed enoent Fulfilled) ].

End Sample.

(** ** Activation and the commands *)

(** The calls of [activate] and of the commands: those of the handlers,
    and the calls only the commands make. *)
Inductive CommandEffect : Type :=
| Core (e : Effect)
| ShowWarningMessage (msg : string)
| ConfigUpdate (key : string) (value : bool)
| RegisterCommand (name : string)
| PushSubscriptions (count : nat).

Module Command.

Definition C (A : Type) : Type := State -> Outcome A * State * list CommandEffect.

Definition ret {A} (a : A) : C A := fun s => (Returned a, s, []).

Definition bind {A B} (m : C A) (f : A -> C B) : C B :=
  fun s =>
    match m s with
    | (Returned a, s1, fx1) =>
        match f a s1 with
        | (o, s2, fx2) => (o, s2, fx1 ++ fx2)
        end
    | (Thrown e, s1, fx1) => (Thrown e, s1, fx1)
    | (Unmodelled, s1, fx1) => (Unmodelled, s1, fx1)
    end.

Definition emit (e : CommandEffect) : C unit := fun s => (Returned tt, s, [e]).

(** A handler run inside a command. *)
Definition core {A} (m : M A) : C A :=
  fun s =>
    match m s with
    | (o, s1, fx) => (o, s1, List.map Core fx)
    end.

End Command.

(** [activate]; [fresh] is the configuration [workspace.getConfiguration]
    returns. *)
Definition activate (fresh : Config) : Command.C unit :=
  Command.bind (Command.core
    (emit (ConsoleLog "[Discord Presence]: Activated!") ;;
     modify (set_config fresh) ;;
     if enabled fresh then initRPC (clientID fresh) false else ret tt)) (fun _ =>
  Command.bind (Command.emit (RegisterCommand "discord.enable")) (fun _ =>
  Command.bind (Command.emit (RegisterCommand "discord.disable")) (fun _ =>
  Command.bind (Command.emit (RegisterCommand "discord.reconnect")) (fun _ =>
  Command.emit (PushSubscriptions 3))))).

(** The command [discord.enable]; [updated] is how the promise of
    [config.update] settles, [fresh] the configuration read after it. *)
Definition enableCommand (destroyed updated : Promise) (fresh : Config) : Command.C unit :=
  Command.bind (Command.core
    (s <- get ;;
     match rpc s with
     | Some _ => destroyRPC destroyed
     | None => ret tt
     end)) (fun _ =>
  Command.bind (Command.emit (ConfigUpdate "enabled" true)) (fun _ =>
  Command.core
    (await updated ;;
     modify (set_config fresh) ;;
     initRPC (clientID fresh) false ;;
     emit (ShowInformationMessage "Enabled Discord Rich Presence for this workspace.")))).

(** The command [discord.disable]. *)
Definition disableCommand (updated : Promise) (fresh : Config) (destroyed : Promise)
  : Command.C unit :=
  fun s =>
    match rpc s with
    | None =>
        Command.emit
          (ShowWarningMessage "Discord Rich Presence is already disabled in this workspace.") s
    | Some _ =>
        Command.bind (Command.emit (ConfigUpdate "enabled" false)) (fun _ =>
        Command.core
          (await updated ;;
           modify (set_config fresh) ;;
           destroyRPC destroyed ;;
           emit (ShowInformationMessage "Disabled Discord Rich Presence for this workspace.")))
          s
    end.

(** What happens to the extension: an event of the event loop, its
    activation, a command of the user, its deactivation. *)
Inductive Action : Type :=
| Deliver (host : Host) (ev : Event)
| Activate (fresh : Config)
| Enable (destroyed updated : Promise) (fresh : Config)
| Disable (updated : Promise) (fresh : Config) (destroyed : Promise)
| Deactivate (destroyed : Promise).

Definition perform (a : Action) : Command.C unit :=
  match a with
  | Deliver host ev => Command.core (handle host ev)
  | Activate fresh => activate fresh
  | Enable destroyed updated fresh => enableCommand destroyed updated fresh
  | Disable updated fresh destroyed => disableCommand updated fresh destroyed
  | Deactivate destroyed => Command.core (deactivate destroyed)
  end.

(** The life of the extension, one action after the other: each handler
    runs to completion, its awaited promises settled as the action says,
    before the next one starts. A schedule in which a handler starts
    while another is suspended at an [await] is not among these runs. *)
Fixpoint session (actions : list Action) (s : State) : State * list CommandEffect :=
  match actions with
  | [] => (s, [])
  | a :: rest =>
      match perform a s with
      | (_, s1, fx1) =>
          match session rest s1 with
          | (s2, fx2) => (s2, fx1 ++ fx2)
          end
      end
  end.

(** The module as it is loaded: every variable undefined, the counter 0;
    the configuration is read by [activate]. *)
Definition loaded (unread : Config) : State :=
  {| rpc := None; config := unread; reconnecting := false; reconnectCounter := 0;
     lastKnownFile := None; activity := None; activityTimer := None;
     statusBarIcon := None |}.

(** ** Refresh timers *)

(** What an effect does to the number of intervals that are set. *)
Definition timerChange (e : Effect) : Z :=
  match e with
  | SetInterval _ => 1
  | ClearInterval => -1
  | _ => 0
  end.

Definition timersChange (fx : list Effect) : Z :=
  List.fold_right (fun e n => timerChange e + n) 0 fx.

Definition commandTimersChange (fx : list CommandEffect) : Z :=
  List.fold_right (fun e n => match e with Core c => timerChange c + n | _ => n end) 0 fx.

(** The number of intervals the module holds: 1 or 0. *)
Definition timersHeld (s : State) : Z :=
  match activityTimer s with
  | Some _ => 1
  | None => 0
  end.

(** ** Coherent states *)

(** Without a client nothing of a session is left; a status bar item that
    exists is shown; the counter is not negative. *)
Definition coherent (s : State) : Prop :=
  (rpc s = None ->
     reconnecting s = false /\ activityTimer s = None /\ lastKnownFile s = None)
  /\ (forall icon, statusBarIcon s = Some icon -> shown icon = true)
  /\ 0 <= reconnectCounter s.

(** A handler whose effects all satisfy [P]. *)
Definition emits_only {A} (P : Effect -> bool) (m : M A) : Prop :=
  forall s, List.forallb P (effects (m s)) = true.

(** The [statSync] call of a template rendered with a focused editor. *)
Definition statOf (host : Host) (rawString : string) : list Effect :=
  match activeTextEditor host with
  | Some ed => if JsString.includes "{filesize}" rawString then [StatSync (fileName ed)] else []
  | None => []
  end.

(** The templates the two lines of the presence are rendered from. *)
Definition detailsSlot (host : Host) : TemplateSlot :=
  if activeDebugSession host then detailsDebugging else detailsEditing.

Definition stateSlot (host : Host) : TemplateSlot :=
  if activeDebugSession host then lowerDetailsDebugging else lowerDetailsEditing.

(** [previousTimestamp] of [setActivity]. *)
Definition previousTimestamp (s : State) : Value :=
  match activity s with
  | Some a => match a !! "startTimestamp" with Some v => v | None => VUndefined end
  | None => VNull
  end.

(** The object the partial update assigns to [activity]. *)
Definition partialActivity (host : Host) (s : State) (details state : string)
  : gmap string Value :=
  <["smallImageKey" := smallImageKey host]>
    (<["state" := VStr state]>
      (<["details" := VStr details]>
        (match activity s with Some a => a | None => ∅ end))).

(** The timestamp the full rebuild computes. *)
Definition rebuiltTimestamp (host : Host) (workspaceElapsedTime_ : bool) (s : State) : Value :=
  match activeTextEditor host with
  | Some _ => if truthy (previousTimestamp s) && workspaceElapsedTime_
              then previousTimestamp s else VNum (now host)
  | None => VNull
  end.

(** The object the full rebuild assigns to [activity]. *)
Definition rebuiltActivity (host : Host) (workspaceElapsedTime_ : bool) (s : State)
  (largeImageKey : Value) (details state largeImageText : string) : gmap string Value :=
  <["instance" := VBool false]>
    (<["smallImageText" :=
         VStr (JsString.replace "{appname}" (appName host) (smallImage (config s)))]>
      (<["smallImageKey" := smallImageKey host]>
        (<["largeImageText" := VStr largeImageText]>
          (<["largeImageKey" := langLabel largeImageKey]>
            (<["startTimestamp" := rebuiltTimestamp host workspaceElapsedTime_ s]>
              (<["state" := VStr state]>
                (<["details" := VStr details]> ∅))))))).

(** The file [setActivity] remembers. *)
Definition focusedFile (host : Host) : option string :=
  match activeTextEditor host with
  | Some ed => Some (fileName ed)
  | None => None
  end.

(** ** More hosts and states *)

Module Scenario.

Definition notes : TextEditor :=
  {| fileName := "/home/u/project/notes.xyz";
     languageId := "python";
     lineCount := 12;
     activeLine := 0;
     activeCharacter := 0;
     workspaceFolder := None;
     relativePath := "/home/u/project/notes.xyz" |}.

(** An editor on a file no key of the table matches, at time 3000. *)
Definition onNotes : Host := Sample.posix (Some notes) "Visual Studio Code" 3000 true.

(** The same, for a file that is not on disk. *)
Definition missing : JsError :=
  {| err_name := "Error"; err_message := "ENOENT: no such file or directory, stat" |}.

Definition unsaved : Host :=
  {| activeTextEditor := activeTextEditor onNotes;
     activeDebugSession := activeDebugSession onNotes;
     appName := appName onNotes;
     now := now onNotes;
     toLocaleString := toLocaleString onNotes;
     toUpperCase := toUpperCase onNotes;
     basename := basename onNotes;
     parse_dir := parse_dir onNotes;
     sep := sep onNotes;
     statSync := fun _ => Err missing;
     regexp_test := regexp_test onNotes;
     knownExtentions := knownExtentions onNotes;
     knownLanguages := knownLanguages onNotes;
     this_largeImageKey := this_largeImageKey onNotes |}.

(** Settings whose first line shows the size of the file, in
    elapsed-time mode. *)
Definition withSize : Config :=
  {| enabled := true;
     clientID := clientID Sample.settings;
     silent := false;
     reconnectThreshold := 3;
     workspaceElapsedTime := true;
     template := fun slot =>
       match slot with
       | detailsEditing => "{filename} ({filesize})"
       | other => template Sample.settings other
       end;
     lowerDetailsNotFound := lowerDetailsNotFound Sample.settings;
     largeImage := largeImage Sample.settings;
     largeImageIdle := largeImageIdle Sample.settings;
     smallImage := smallImage Sample.settings |}.

Definition readyWithSize : State := set_config withSize Sample.ready.

(** Settings of a workspace in which the extension is disabled. *)
Definition disabled : Config :=
  {| enabled := false;
     clientID := clientID Sample.settings;
     silent := false;
     reconnectThreshold := 3;
     workspaceElapsedTime := false;
     template := template Sample.settings;
     lowerDetailsNotFound := lowerDetailsNotFound Sample.settings;
     largeImage := largeImage Sample.settings;
     largeImageIdle := largeImageIdle Sample.settings;
     smallImage := smallImage Sample.settings |}.

End Scenario.

(** ** The listener of [ready], step by step *)

(** The state in which the listener of [ready] builds the presence. *)
Definition readied (s : State) : State :=
  set_reconnectCounter 0
    (set_activityTimer None (set_reconnecting false (set_statusBarIcon None s))).

(** The calls the listener makes before it builds the presence. *)
Definition readyPrefix (loud : bool) (s : State) : list Effect :=
  ConsoleLog "[Discord Presence]: Successfully connected to Discord"
  :: (if loud && negb (silent (config s))
      then [ShowInformationMessage "Successfully reconnected to Discord RPC"] else [])
  ++ (match statusBarIcon s with Some _ => [StatusBarDispose] | None => [] end)
  ++ (match activityTimer s with Some _ => [ClearInterval] | None => [] end).

Definition isSend (e : Effect) : bool :=
  match e with RpcSetActivity _ => true | _ => false end.

Definition isDestroy (e : Effect) : bool :=
  match e with RpcDestroy => true | _ => false end.

(** The calls of [destroyRPC] on a state with a client. *)
Definition teardownCalls (s : State) : list Effect :=
  match rpc s with
  | Some _ => (match activityTimer s with Some _ => [ClearInterval] | None => [] end)
              ++ [RpcDestroy]
  | None => []
  end.

(** The number of [rpc.login] calls among the effects of a command. *)
Definition commandLogins (fx : list CommandEffect) : nat :=
  List.length (List.filter (fun e => match e with Core (Login _) => true | _ => false end) fx).

(** The names of the commands registered among the effects of a command. *)
Definition registered (fx : list CommandEffect) : list string :=
  List.flat_map (fun e => match e with RegisterCommand name => [name] | _ => [] end) fx.

(** The template that [generateDetails] fills in while an editor is
    focused. *)
Definition chosenTemplate (host : Host) (debugging editing : TemplateSlot) (s : State) : string :=
  template (config s) (if activeDebugSession host then debugging else editing).

(** Settings whose lines are fixed texts. *)
Definition fixedLines : Config :=
  {| enabled := true;
     clientID := clientID Sample.settings;
     silent := false;
     reconnectThreshold := 3;
     workspaceElapsedTime := false;
     template := fun slot =>
       match slot with
       | detailsEditing => "Hard at work"
       | lowerDetailsEditing => "In a project"
       | other => template Sample.settings other
       end;
     lowerDetailsNotFound := lowerDetailsNotFound Sample.settings;
     largeImage := largeImage Sample.settings;
     largeImageIdle := largeImageIdle Sample.settings;
     smallImage := smallImage Sample.settings |}.

(** The editor of [Sample.editing] on a file of 800 bytes. *)
Definition smallFile : Host :=
  {| activeTextEditor := activeTextEditor Sample.editing;
     activeDebugSession := activeDebugSession Sample.editing;
     appName := appName Sample.editing;
     now := now Sample.editing;
     toLocaleString := toLocaleString Sample.editing;
     toUpperCase := toUpperCase Sample.editing;
     basename := basename Sample.editing;
     parse_dir := parse_dir Sample.editing;
     sep := sep Sample.editing;
     statSync := fun _ => Ok 800%N;
     regexp_test := regexp_test Sample.editing;
     knownExtentions := knownExtentions Sample.editing;
     knownLanguages := knownLanguages Sample.editing;
     this_largeImageKey := this_largeImageKey Sample.editing |}.

(** * Properties *)

(** ** The embedding on concrete inputs *)

Example includes_inner : JsString.includes "ENOENT" "connect ENOENT /tmp/discord-ipc-0" = true.
Proof. reflexivity. Qed.

Example replace_first_only :
  JsString.replace "{null}" "-" "a{null}b{null}" = "a-b{null}".
Proof. reflexivity. Qed.

Example replace_dollar : JsString.replace "{filename}" "a$&b$$" "<{filename}>" = "<a{filename}b$>".
Proof. reflexivity. Qed.

Example split_path : JsString.split "/" "/home/u/src" = [""; "home"; "u"; "src"].
Proof. reflexivity. Qed.

Example ofZ_neg : JsString.ofZ (-12) = "-12" /\ JsString.ofZ 0 = "0".
Proof. split; reflexivity. Qed.

Example formatSize_1005 : formatSize 1005 = Returned "1.00kb".
Proof. vm_compute. reflexivity. Qed.

Example formatSize_1000 : formatSize 1000 = Returned "1000 bytes".
Proof. vm_compute. reflexivity. Qed.

Example formatSize_million : formatSize 1000000 = Returned "1000.00kb".
Proof. vm_compute. reflexivity. Qed.

Example formatSize_1999 : formatSize 1999999 = Returned "2.00mb".
Proof. vm_compute. reflexivity. Qed.

Example regex_key : RegexKey.parse "/^docker-compose\.ya?ml$/i" = Some ("^docker-compose\.ya?ml$", "i").
Proof. reflexivity. Qed.

Example regex_key_slashes : RegexKey.parse "/a/b/gi" = Some ("a/b", "gi").
Proof. reflexivity. Qed.

Example regex_key_none : RegexKey.parse ".js" = None /\ RegexKey.parse "/abc/" = None.
Proof. split; reflexivity. Qed.

Example ready_from_connecting :
  final (onReady (Sample.posix (Some Sample.mainTs) "Visual Studio Code" 1000 true) false
           Sample.connecting)
  = Sample.ready.
Proof. vm_compute. reflexivity. Qed.

Example close_begins_reconnect :
  final (onClose Fulfilled Sample.ready) = Sample.reconnect_begun.
Proof. vm_compute. reflexivity. Qed.

Example basename_posix : basename Sample.editing "/home/u/project/src/main.ts" = "main.ts".
Proof. reflexivity. Qed.

(** ** Reasoning about handlers *)

Lemma final_bind {A B} (m : M A) (f : A -> M B) (s : State) :
  final (bind m f s) =
  match outcome (m s) with
  | Returned a => final (f a (final (m s)))
  | _ => final (m s)
  end.
Proof.
  unfold bind, final, outcome.
  destruct (m s) as [[[a | e |] s1] fx1]; cbn; try reflexivity.
  destruct (f a s1) as [[o s2] fx2]; reflexivity.
Qed.

Lemma effects_bind {A B} (m : M A) (f : A -> M B) (s : State) :
  effects (bind m f s) =
  match outcome (m s) with
  | Returned a => effects (m s) ++ effects (f a (final (m s)))
  | _ => effects (m s)
  end.
Proof.
  unfold bind, final, outcome, effects.
  destruct (m s) as [[[a | e |] s1] fx1]; cbn; try reflexivity.
  destruct (f a s1) as [[o s2] fx2]; reflexivity.
Qed.

Lemma outcome_bind {A B} (m : M A) (f : A -> M B) (s : State) :
  outcome (bind m f s) =
  match outcome (m s) with
  | Returned a => outcome (f a (final (m s)))
  | Thrown e => Thrown e
  | Unmodelled => Unmodelled
  end.
Proof.
  unfold bind, final, outcome.
  destruct (m s) as [[[a | e |] s1] fx1]; cbn; try reflexivity.
  destruct (f a s1) as [[o s2] fx2]; reflexivity.
Qed.

Lemma bind_modify {B} (g : State -> State) (k : unit -> M B) (s : State) :
  bind (modify g) k s = k tt (g s).
Proof. unfold bind, modify. destruct (k tt (g s)) as [[o s2] fx2]. reflexivity. Qed.

Section Frame.

Variable R : State -> State -> Prop.
Hypothesis R_refl : forall s, R s s.
Hypothesis R_trans : forall s1 s2 s3, R s1 s2 -> R s2 s3 -> R s1 s3.

Lemma respects_ret {A} (a : A) : respects R (ret a).
Proof. intros s. apply R_refl. Qed.

Lemma respects_throw {A} (e : JsError) : respects R (@throw A e).
Proof. intros s. apply R_refl. Qed.

Lemma respects_get : respects R get.
Proof. intros s. apply R_refl. Qed.

Lemma respects_emit (e : Effect) : respects R (emit e).
Proof. intros s. apply R_refl. Qed.

Lemma respects_lift {A} (r : Result A) : respects R (lift r).
Proof. intros s. apply R_refl. Qed.

Lemma respects_liftOutcome {A} (o : Outcome A) : respects R (liftOutcome o).
Proof. intros s. apply R_refl. Qed.

Lemma respects_await (p : Promise) : respects R (await p).
Proof. intros s. apply R_refl. Qed.

Lemma respects_modify (g : State -> State) :
  (forall s, R s (g s)) -> respects R (modify g).
Proof. intros Hg s. apply Hg. Qed.

Lemma respects_bind {A B} (m : M A) (f : A -> M B) :
  respects R m -> (forall a, respects R (f a)) -> respects R (bind m f).
Proof.
  intros Hm Hf s. rewrite final_bind.
  destruct (outcome (m s)) as [a | e |]; try apply Hm.
  eapply R_trans; [apply Hm | apply Hf].
Qed.

Lemma respects_try_catch (m : M unit) : respects R m -> respects R (try_catch m).
Proof.
  intros Hm s. specialize (Hm s). unfold try_catch, final in *.
  destruct (m s) as [[[a | e |] s1] fx1]; exact Hm.
Qed.

End Frame.

Lemma respects_weaken {A} (R1 R2 : State -> State -> Prop) (m : M A) :
  (forall s s', R1 s s' -> R2 s s') -> respects R1 m -> respects R2 m.
Proof. intros H Hm s. apply H, Hm. Qed.

(** One syntax-directed step of a proof that a handler respects [R]. *)
Ltac frame_step :=
  lazymatch goal with
  | |- respects _ (bind _ _) => apply respects_bind; [ assumption | | intros ]
  | |- respects _ (ret _) => apply respects_ret; assumption
  | |- respects _ (throw _) => apply respects_throw; assumption
  | |- respects _ get => apply respects_get; assumption
  | |- respects _ (emit _) => apply respects_emit; assumption
  | |- respects _ (lift _) => apply respects_lift; assumption
  | |- respects _ (liftOutcome _) => apply respects_liftOutcome; assumption
  | |- respects _ (await _) => apply respects_await; assumption
  | |- respects _ (let _ := _ in _) => cbv zeta
  | |- respects _ (if ?b then _ else _) => destruct b
  | |- respects _ (match ?x with _ => _ end) => destruct x
  end.

Lemma stateless_run {A} (m : M A) (s s1 : State) (o : Outcome A) (fx : list Effect) :
  stateless m -> m s = (o, s1, fx) -> s1 = s.
Proof. intros Hm E. specialize (Hm s). rewrite E in Hm. symmetry. exact Hm. Qed.

Section Stateless.

Variable host : Host.

Let eq_refl_state : forall s : State, s = s := fun s => eq_refl.
Let eq_trans_state : forall s1 s2 s3 : State, s1 = s2 -> s2 = s3 -> s1 = s3 :=
  fun s1 s2 s3 => @eq_trans State s1 s2 s3.

Lemma document_stateless : stateless (document host).
Proof. unfold stateless, document. repeat frame_step. Qed.

Lemma getFileDetails_stateless (rawString : string) :
  stateless (getFileDetails host rawString).
Proof.
  unfold stateless, getFileDetails.
  repeat first [ apply document_stateless | frame_step ].
Qed.

Lemma langLabelUpper_stateless (key : Value) : stateless (langLabelUpper host key).
Proof. unfold stateless, langLabelUpper. repeat frame_step. Qed.

Lemma generateDetails_stateless (debugging editing idling : TemplateSlot) (key : Value) :
  stateless (generateDetails host debugging editing idling key).
Proof.
  unfold stateless, generateDetails.
  repeat first [ apply getFileDetails_stateless | apply langLabelUpper_stateless | frame_step ].
Qed.

Lemma this_key_stateless : stateless (this_key host).
Proof. unfold stateless, this_key. repeat frame_step. Qed.

Lemma resolveLargeImageKey_stateless : stateless (resolveLargeImageKey host).
Proof. unfold stateless, resolveLargeImageKey. repeat frame_step. Qed.

End Stateless.

(** ** File-detail extractor *)

(** C7. A template without the placeholder of the file size makes
    [getFileDetails] call [statSync] zero times, whatever else the
    template holds and whether or not an editor is focused; every fact
    whose placeholder is absent from the template is null in the object
    that is returned; and with an editor focused and no file size asked
    for, the object is returned, the state is untouched and no collaborator
    is called. *)
Theorem getFileDetails_on_demand (host : Host) (rawString : string) (s : State) :
  let r := getFileDetails host rawString s in
  (JsString.includes "{filesize}" rawString = false -> statCalls (effects r) = 0%nat)
  /\ (forall obj, outcome r = Returned obj ->
        (JsString.includes "{filesize}" rawString = false -> FileDetail.size obj = None)
        /\ (JsString.includes "{totallines}" rawString = false -> FileDetail.totalLines obj = None)
        /\ (JsString.includes "{currentline}" rawString = false -> FileDetail.currentLine obj = None)
        /\ (JsString.includes "{currentcolumn}" rawString = false ->
              FileDetail.currentColumn obj = None))
  /\ (forall ed, activeTextEditor host = Some ed ->
        JsString.includes "{filesize}" rawString = false ->
        exists obj, r = (Returned obj, s, [])).
Proof.
  cbv zeta. unfold getFileDetails, document.
  destruct (String.eqb rawString EmptyString).
  { repeat split; intros; cbn in *; try congruence; eauto.
    all: match goal with H : Returned _ = Returned _ |- _ => inversion H; reflexivity end. }
  destruct (JsString.includes "{totallines}" rawString);
  destruct (JsString.includes "{currentline}" rawString);
  destruct (JsString.includes "{currentcolumn}" rawString);
  destruct (JsString.includes "{filesize}" rawString);
  destruct (activeTextEditor host) as [ed |]; cbn;
  try (destruct (statSync host (fileName ed)) as [bytes | e]; cbn;
       try (destruct (formatSize bytes) as [t | e |]; cbn));
  (split; [ intros; solve [ reflexivity | congruence ]
          | split; [ intros obj H; try discriminate H;
                     try (inversion H; subst obj; cbn;
                          repeat split; intros; solve [ reflexivity | congruence ])
                   | intros ed' H1 H2; try discriminate H1; try discriminate H2; eauto ] ]).
Qed.

Lemma getFileDetails_on_demand_witness :
  JsString.includes "{filesize}" "Line {currentline} of {filename}" = false
  /\ statCalls (effects (getFileDetails Sample.editing "Line {currentline} of {filename}" Sample.ready)) = 0%nat
  /\ outcome (getFileDetails Sample.editing "Line {currentline} of {filename}" Sample.ready)
     = Returned {| FileDetail.size := None; FileDetail.totalLines := None;
                   FileDetail.currentLine := Some "10"; FileDetail.currentColumn := None |}.
Proof.
  split; [ reflexivity | split ].
  - apply (proj1 (getFileDetails_on_demand Sample.editing "Line {currentline} of {filename}" Sample.ready)).
    reflexivity.
  - reflexivity.
Defined.

Example getFileDetails_stats_when_asked :
  getFileDetails Sample.editing "{filesize}" Sample.ready
  = (Returned {| FileDetail.size := Some "1.50mb"; FileDetail.totalLines := None;
                 FileDetail.currentLine := None; FileDetail.currentColumn := None |},
     Sample.ready, [StatSync "/home/u/project/src/main.ts"]).
Proof. vm_compute. reflexivity. Qed.

(** Up to 1000 bytes no division takes place and the size is printed
    as it is, every digit of it, before the unit of bytes. *)
Lemma formatSize_bytes (n : N) :
  (n <= 1000)%N -> formatSize n = Returned (JsString.ofZ (Z.of_N n) +:+ " bytes").
Proof.
  intros Hn.
  assert (Hall : List.forallb
                   (fun k => match formatSize (N.of_nat k) with
                             | Returned t =>
                                 String.eqb t (JsString.ofZ (Z.of_nat k) +:+ " bytes")
                             | _ => false
                             end)
                   (List.seq 0 1001) = true)
    by (vm_compute; reflexivity).
  rewrite List.forallb_forall in Hall.
  specialize (Hall (N.to_nat n)).
  rewrite N2Nat.id, <- (N_nat_Z n) in *.
  assert (Hin : List.In (N.to_nat n) (List.seq 0 1001)) by (apply List.in_seq; lia).
  specialize (Hall Hin).
  destruct (formatSize n) as [t | e |]; try discriminate.
  apply String.eqb_eq in Hall. congruence.
Qed.

(** C8. The two sizes of the specification are formatted as it says, by
    one division by 1000 per unit and [toFixed(2)] once a division took
    place. The last unit of the table serves up to 10^15 bytes; a larger
    size is divided five times and indexes the five units out of range,
    which prints [undefined] for the unit. *)
Theorem formatSize_units :
  formatSize 1500000 = Returned "1.50mb"
  /\ formatSize 800 = Returned "800 bytes"
  /\ formatSize 1000000000000000 = Returned "1000.00tb"
  /\ formatSize 1000000000000001 = Returned "1.00undefined"
  /\ formatSize 2000000000000000 = Returned "2.00undefined".
Proof. repeat split; vm_compute; reflexivity. Qed.

(** ** Teardown *)

(** After a teardown whose [rpc.destroy()] rejects, the client is still
    there: a second teardown does not return at once but destroys the
    client again and, when that completes, changes the state the first
    call left. *)
Lemma destroyRPC_again_after_rejection :
  outcome (destroyRPC (Rejected Sample.refused) Sample.ready) = Thrown Sample.refused
  /\ rpc (final (destroyRPC (Rejected Sample.refused) Sample.ready)) = Some Sample.ipc
  /\ lastKnownFile (final (destroyRPC (Rejected Sample.refused) Sample.ready))
     = Some "/home/u/project/src/main.ts"
  /\ effects (destroyRPC Fulfilled (final (destroyRPC (Rejected Sample.refused) Sample.ready)))
     = [RpcDestroy]
  /\ rpc (final (destroyRPC Fulfilled
                   (final (destroyRPC (Rejected Sample.refused) Sample.ready)))) = None
  /\ lastKnownFile (final (destroyRPC Fulfilled
                             (final (destroyRPC (Rejected Sample.refused) Sample.ready)))) = None.
Proof. repeat split; vm_compute; reflexivity. Qed.

(** C9, amended. [destroyRPC] without a client returns at once: no state
    changes and no collaborator is called. For every state, a teardown
    whose [rpc.destroy()] completes returns and leaves no client, no
    timer, no remembered file and no reconnection under way; a second
    teardown then is the no-op above, however its own [rpc.destroy()]
    would settle, so that two calls in a row end as the one call does,
    with the same state and the same calls. *)
Theorem destroyRPC_idempotent (d2 : Promise) (s : State) :
  (rpc s = None -> forall d, destroyRPC d s = (Returned tt, s, []))
  /\ outcome (destroyRPC Fulfilled s) = Returned tt
  /\ rpc (final (destroyRPC Fulfilled s)) = None
  /\ (rpc s <> None ->
      final (destroyRPC Fulfilled s)
      = set_lastKnownFile None
          (set_rpc None (set_activityTimer None (set_reconnecting false s)))
      /\ List.In RpcDestroy (effects (destroyRPC Fulfilled s)))
  /\ destroyRPC d2 (final (destroyRPC Fulfilled s))
     = (Returned tt, final (destroyRPC Fulfilled s), [])
  /\ (destroyRPC Fulfilled ;; destroyRPC d2) s = destroyRPC Fulfilled s.
Proof.
  unfold destroyRPC, bind, get, modify, emit, await, ret, final, outcome, effects.
  destruct s as [r c rc n l a t i].
  destruct r as [client |], t as [timer |]; cbn;
    repeat split; intros; try congruence; try reflexivity; auto.
Qed.

Lemma destroyRPC_idempotent_witness :
  rpc Sample.disconnected = None
  /\ destroyRPC Fulfilled Sample.disconnected = (Returned tt, Sample.disconnected, [])
  /\ rpc Sample.ready <> None
  /\ effects (destroyRPC Fulfilled Sample.ready) = [ClearInterval; RpcDestroy]
  /\ destroyRPC (Rejected Sample.refused) (final (destroyRPC Fulfilled Sample.ready))
     = (Returned tt, final (destroyRPC Fulfilled Sample.ready), [])
  /\ (destroyRPC Fulfilled ;; destroyRPC (Rejected Sample.refused)) Sample.ready
     = destroyRPC Fulfilled Sample.ready.
Proof.
  split; [ reflexivity | split; [ | split; [ discriminate | split; [ reflexivity | split ] ] ] ].
  - apply (proj1 (destroyRPC_idempotent Fulfilled Sample.disconnected)). reflexivity.
  - apply (proj1 (proj2 (proj2 (proj2 (proj2
             (destroyRPC_idempotent (Rejected Sample.refused) Sample.ready)))))).
  - apply (proj2 (proj2 (proj2 (proj2 (proj2
             (destroyRPC_idempotent (Rejected Sample.refused) Sample.ready)))))).
Defined.

Example destroyRPC_ready :
  destroyRPC Fulfilled Sample.ready
  = (Returned tt,
     set_lastKnownFile None (set_rpc None (set_activityTimer None Sample.ready)),
     [ClearInterval; RpcDestroy]).
Proof. vm_compute. reflexivity. Qed.

(** ** Presence state builder *)

(** C10. Without a client, [setActivity] returns at once: the activity,
    [lastKnownFile] and every other module variable are as before, and no
    collaborator is called. *)
Theorem setActivity_without_client (host : Host) (workspaceElapsedTime_ : bool) (s : State) :
  rpc s = None -> setActivity host workspaceElapsedTime_ s = (Returned tt, s, []).
Proof.
  intros H. unfold setActivity, bind, get. rewrite H. reflexivity.
Qed.

Lemma setActivity_without_client_witness :
  rpc Sample.disconnected = None
  /\ setActivity Sample.editing true Sample.disconnected = (Returned tt, Sample.disconnected, []).
Proof.
  split; [ reflexivity | ].
  apply (setActivity_without_client Sample.editing true Sample.disconnected). reflexivity.
Defined.

(** ** Manual reconnect *)

(** In silent mode and with no status bar item, the command shows
    nothing: no message, and no item appears. *)
Lemma reconnect_silent_without_icon :
  silent (config Sample.readyQuiet) = true
  /\ statusBarIcon Sample.readyQuiet = None
  /\ effects (reconnectCommand Fulfilled Sample.readyQuiet)
     = [ClearInterval; RpcDestroy; NewClient; OnceReady true; Login "383226320970055681"]
  /\ statusBarIcon (final (reconnectCommand Fulfilled Sample.readyQuiet)) = None.
Proof. repeat split; vm_compute; reflexivity. Qed.

(** C4, amended. The reconnect command always completes and starts one
    login. It announces the reconnection by a message when the
    configuration is not silent, and by the text of the status bar item
    when an item exists; in silent mode without an item it shows
    nothing. *)
Theorem reconnectCommand_status (destroyed : Promise) (s : State) :
  let r := reconnectCommand destroyed s in
  outcome r = Returned tt
  /\ logins (effects r) = 1%nat
  /\ List.filter isInformation (effects r)
     = (if silent (config s) then []
        else [ShowInformationMessage "Reconnecting to Discord RPC"])
  /\ statusBarIcon (final r)
     = match statusBarIcon s with
       | Some icon => Some {| text := "$(pulse) Reconnecting"; command := command icon;
                              shown := shown icon |}
       | None => None
       end.
Proof.
  unfold reconnectCommand, try_catch, destroyRPC, initRPC, bind, get, modify, emit, await, ret,
    final, outcome, effects, logins.
  destruct s as [r c rc n l a t i].
  destruct r as [client |], t as [timer |], destroyed as [| e], i as [icon |];
    cbn; destruct (silent c); cbn; repeat split; reflexivity.
Qed.

(** ** Login failures *)

(** A failure while reconnecting with attempts left is retried and shows
    no notice, although the configuration is not silent. *)
Lemma retried_failure_shows_no_notice :
  silent (config Sample.reconnect_begun) = false
  /\ JsString.includes "ENOENT" (err_message Sample.enoent) = true
  /\ errorNotices (effects (onLoginError Sample.enoent Fulfilled Sample.reconnect_begun)) = []
  /\ errorNotices (effects (onLoginError Sample.refused Fulfilled Sample.reconnect_begun)) = [].
Proof. repeat split; vm_compute; reflexivity. Qed.

(** C6, amended. A login failure that is retried (reconnecting, counter
    below the threshold) shows no notice. A failure that is not retried,
    and whose teardown, if any, completes, shows nothing in silent mode
    and otherwise exactly one notice: the missing-client notice when the
    message of the error includes ENOENT, the text of the error after a
    fixed prefix when it does not. *)
Theorem login_failure_notice (error : JsError) (destroyed : Promise) (s : State) :
  let r := onLoginError error destroyed s in
  let retried := reconnecting s && (reconnectCounter s <? reconnectThreshold (config s)) in
  (retried = true -> errorNotices (effects r) = [])
  /\ (retried = false ->
      reconnecting s = false \/ rpc s = None \/ destroyed = Fulfilled ->
      errorNotices (effects r) = if silent (config s) then [] else [failureNotice error]).
Proof.
  cbv zeta.
  unfold onLoginError, createButton, destroyRPC, initRPC, bind, get, modify, emit, await, ret,
    final, outcome, effects, errorNotices, failureNotice.
  destruct s as [r c rc n l a t i]. cbn.
  rewrite (Z.leb_antisym n (reconnectThreshold c)).
  destruct rc; cbn.
  - destruct (n <? reconnectThreshold c); cbn.
    + split; [ intros _ | intros H; discriminate H ].
      destruct i as [icon |]; reflexivity.
    + split; [ intros H; discriminate H | intros _ H ].
      destruct r as [client |], t as [timer |], destroyed as [| e], i as [icon |]; cbn;
        try (exfalso; destruct H as [H | [H | H]]; discriminate H);
        destruct (silent c); cbn; try reflexivity;
        destruct (JsString.includes "ENOENT" (err_message error)); reflexivity.
  - split; [ intros H; discriminate H | intros _ _ ].
    destruct (silent c); cbn; [ reflexivity | ].
    destruct (JsString.includes "ENOENT" (err_message error)), i as [icon |]; reflexivity.
Qed.

Lemma login_failure_notice_witness :
  (reconnecting Sample.disconnected
   && (reconnectCounter Sample.disconnected <? reconnectThreshold (config Sample.disconnected)))
  = false
  /\ errorNotices (effects (onLoginError Sample.enoent Fulfilled Sample.disconnected))
     = [ShowErrorMessage "No Discord Client detected!"].
Proof.
  split; [ reflexivity | ].
  apply (proj2 (login_failure_notice Sample.enoent Fulfilled Sample.disconnected));
    [ reflexivity | left; reflexivity ].
Defined.

Example generic_failure_notice :
  errorNotices (effects (onLoginError Sample.refused Fulfilled Sample.disconnected))
  = [ShowErrorMessage "Couldn't connect to Discord via RPC: Error: Could not connect"].
Proof. vm_compute. reflexivity. Qed.

(** ** Idle snapshot *)

(** In an Insiders build the idle key of the large image is the key of
    every other build; the application name shows in the small image. *)
Lemma idle_insiders_large_image :
  activeTextEditor Sample.idleInsiders = None
  /\ JsString.includes "Insiders" (appName Sample.idleInsiders) = true
  /\ field "largeImageKey" (final (setActivity Sample.idleInsiders false Sample.ready))
     = Some (VStr "vscode-big")
  /\ field "largeImageKey" (final (setActivity Sample.idle false Sample.ready))
     = Some (VStr "vscode-big")
  /\ field "smallImageKey" (final (setActivity Sample.idleInsiders false Sample.ready))
     = Some (VStr "vscode-insiders").
Proof. repeat split; vm_compute; reflexivity. Qed.

Arguments generateDetails : simpl never.

Lemma generateDetails_idle (host : Host) (debugging editing idling : TemplateSlot)
  (key : Value) (s : State) :
  activeTextEditor host = None ->
  generateDetails host debugging editing idling key s
  = (Returned (JsString.replace "{null}" (zwsp +:+ zwsp) (template (config s) idling)), s, []).
Proof.
  intros H. unfold generateDetails, bind, get. cbn. rewrite H. reflexivity.
Qed.

(** C5, amended. With a client and no focused editor, [setActivity]
    returns, calls no collaborator, clears [lastKnownFile] and stores a
    snapshot whose [startTimestamp] is null and whose [largeImageKey] is
    [vscode-big] for every application name; the application name shows
    in [smallImageKey] only, which is [vscode-insiders] for an Insiders
    build without a debug session. *)
Theorem idle_snapshot (host : Host) (workspaceElapsedTime_ : bool) (s : State) (client : Client) :
  activeTextEditor host = None ->
  rpc s = Some client ->
  exists a,
    setActivity host workspaceElapsedTime_ s
    = (Returned tt, set_activity (Some a) (set_lastKnownFile None s), [])
    /\ a !! "startTimestamp" = Some VNull
    /\ a !! "largeImageKey" = Some (VStr "vscode-big")
    /\ a !! "smallImageKey"
       = Some (if activeDebugSession host then VStr "debug"
               else if JsString.includes "Insiders" (appName host) then VStr "vscode-insiders"
               else VStr "vscode").
Proof.
  intros Hed Hrpc.
  unfold setActivity, bind at 1, get. rewrite Hrpc.
  unfold sameFile. rewrite Hed.
  unfold fullRebuild, resolveLargeImageKey. rewrite Hed.
  unfold bind, modify, get, ret. cbn.
  rewrite !generateDetails_idle by exact Hed. cbn.
  eexists. split; [ reflexivity | ].
  unfold smallImageKey. repeat split; reflexivity.
Qed.

Lemma idle_snapshot_witness :
  activeTextEditor Sample.idleInsiders = None
  /\ rpc Sample.ready = Some Sample.ipc
  /\ exists a,
       setActivity Sample.idleInsiders true Sample.ready
       = (Returned tt, set_activity (Some a) (set_lastKnownFile None Sample.ready), [])
       /\ a !! "startTimestamp" = Some VNull
       /\ a !! "largeImageKey" = Some (VStr "vscode-big")
       /\ a !! "smallImageKey" = Some (VStr "vscode-insiders").
Proof.
  split; [ reflexivity | split; [ reflexivity | ] ].
  destruct (idle_snapshot Sample.idleInsiders true Sample.ready Sample.ipc eq_refl eq_refl)
    as [a [H1 [H2 [H3 H4]]]].
  exists a. repeat split; assumption.
Defined.

(** ** What the presence builder may change *)

Create HintDb stateless.

#[local] Hint Resolve document_stateless getFileDetails_stateless langLabelUpper_stateless
  generateDetails_stateless this_key_stateless resolveLargeImageKey_stateless : stateless.

Lemma stateless_respects {A} (R : State -> State -> Prop) (m : M A) :
  (forall s, R s s) -> stateless m -> respects R m.
Proof. intros Hrefl Hm s. rewrite <- (Hm s). apply Hrefl. Qed.

Lemma lifecycle_frame_refl (s : State) : lifecycle_frame s s.
Proof. repeat split. Qed.

Lemma lifecycle_frame_trans (s1 s2 s3 : State) :
  lifecycle_frame s1 s2 -> lifecycle_frame s2 s3 -> lifecycle_frame s1 s3.
Proof.
  unfold lifecycle_frame. intros (A1 & A2 & A3 & A4 & A5 & A6) (B1 & B2 & B3 & B4 & B5 & B6).
  repeat split; congruence.
Qed.

Lemma partial_frame_refl (s : State) : partial_frame s s.
Proof. repeat split. Qed.

Lemma partial_frame_trans (s1 s2 s3 : State) :
  partial_frame s1 s2 -> partial_frame s2 s3 -> partial_frame s1 s3.
Proof.
  intros (A1 & A2 & A3) (B1 & B2 & B3).
  split; [ eapply lifecycle_frame_trans; eassumption | split; [ congruence | ] ].
  intros k H1 H2 H3. rewrite B3, A3 by assumption. reflexivity.
Qed.

(** A proof that a handler respects [R], by the structure of the handler;
    the context holds the reflexivity and the transitivity of [R]. *)
Ltac frame :=
  repeat first
    [ apply stateless_respects; [ assumption | solve [ auto with stateless ] ]
    | frame_step ].

Section PresenceFrame.

Variable host : Host.

Lemma partialUpdate_frame : respects partial_frame (partialUpdate host).
Proof.
  pose proof partial_frame_refl as Hrefl. pose proof partial_frame_trans as Htrans.
  unfold partialUpdate. frame.
  apply respects_modify. intros s.
  split; [ repeat split | split; [ reflexivity | ] ].
  intros k H1 H2 H3. unfold field. cbn.
  rewrite !lookup_insert_ne by congruence.
  destruct (activity s); [ reflexivity | apply lookup_empty ].
Qed.

Lemma fullRebuild_frame (workspaceElapsedTime_ : bool) :
  respects lifecycle_frame (fullRebuild host workspaceElapsedTime_).
Proof.
  pose proof lifecycle_frame_refl as Hrefl. pose proof lifecycle_frame_trans as Htrans.
  unfold fullRebuild. frame.
  all: apply respects_modify; intros s; repeat split.
Qed.

Lemma setActivity_frame (workspaceElapsedTime_ : bool) :
  respects lifecycle_frame (setActivity host workspaceElapsedTime_).
Proof.
  pose proof lifecycle_frame_refl as Hrefl. pose proof lifecycle_frame_trans as Htrans.
  unfold setActivity. frame.
  - eapply respects_weaken; [ | apply partialUpdate_frame ]. intros s s' H. apply H.
  - apply fullRebuild_frame.
Qed.

End PresenceFrame.


(** ** Reconnect sequences *)

Lemma logins_app (fx1 fx2 : list Effect) : logins (fx1 ++ fx2) = (logins fx1 + logins fx2)%nat.
Proof. unfold logins. rewrite List.filter_app, List.length_app. reflexivity. Qed.

Lemma run_app (l1 l2 : list (Host * Event)) (s : State) :
  run (l1 ++ l2) s
  = (fst (run l2 (fst (run l1 s))), snd (run l1 s) ++ snd (run l2 (fst (run l1 s)))).
Proof.
  revert s. induction l1 as [| [host ev] l1 IH]; intros s; cbn.
  - destruct (run l2 s); reflexivity.
  - destruct (handle host ev s) as [[o s1] fx1]. rewrite IH.
    destruct (run l1 s1) as [s2 fx2]. cbn. rewrite List.app_assoc. reflexivity.
Qed.

(** A failure while reconnecting below the threshold: the counter goes
    up by one, the indicator shows the attempts left, and one login is
    started on a new client. *)
Lemma onLoginError_retry (error : JsError) (destroyed : Promise) (s : State) :
  reconnecting s = true ->
  reconnectCounter s < reconnectThreshold (config s) ->
  outcome (onLoginError error destroyed s) = Returned tt
  /\ logins (effects (onLoginError error destroyed s)) = 1%nat
  /\ reconnecting (final (onLoginError error destroyed s)) = true
  /\ reconnectCounter (final (onLoginError error destroyed s)) = reconnectCounter s + 1
  /\ config (final (onLoginError error destroyed s)) = config s
  /\ rpc (final (onLoginError error destroyed s)) = Some {| transport := "ipc" |}
  /\ exists icon,
       statusBarIcon (final (onLoginError error destroyed s)) = Some icon
       /\ text icon = reconnectingText (reconnectThreshold (config s) - (reconnectCounter s + 1))
       /\ command icon = "".
Proof.
  intros Hrec Hlt. apply Z.leb_gt in Hlt.
  unfold onLoginError, createButton, initRPC, bind, get, modify, emit, ret,
    final, outcome, effects, logins.
  destruct s as [r c rc n l a t i]. cbn in *. subst rc. rewrite Hlt. cbn.
  destruct i as [icon |]; cbn; repeat split; eexists; repeat split.
Qed.

(** A failure while reconnecting at the threshold: no login is started
    and the indicator offers the manual reconnect, however the teardown
    settles. *)
Lemma onLoginError_exhausted (error : JsError) (destroyed : Promise) (s : State) :
  reconnecting s = true ->
  reconnectThreshold (config s) <= reconnectCounter s ->
  logins (effects (onLoginError error destroyed s)) = 0%nat
  /\ reconnectCounter (final (onLoginError error destroyed s)) = reconnectCounter s
  /\ (destroyed = Fulfilled -> rpc (final (onLoginError error destroyed s)) = None)
  /\ exists icon,
       statusBarIcon (final (onLoginError error destroyed s)) = Some icon
       /\ text icon = reconnectText
       /\ command icon = "discord.reconnect".
Proof.
  intros Hrec Hle. apply Z.leb_le in Hle.
  unfold onLoginError, createButton, destroyRPC, bind, get, modify, emit, await, ret,
    final, outcome, effects, logins.
  destruct s as [r c rc n l a t i]. cbn in *. subst rc. rewrite Hle. cbn.
  destruct i as [icon |], r as [client |], t as [timer |], destroyed as [| e]; cbn;
    destruct (silent c); cbn;
    try destruct (JsString.includes "ENOENT" (err_message error)); cbn;
    repeat split; try discriminate; eexists; repeat split.
Qed.

(** Failures that stay within the threshold are all retried. *)
Lemma run_retries (fs : list (Host * JsError * Promise)) :
  forall s : State,
    reconnecting s = true ->
    reconnectCounter s + Z.of_nat (List.length fs) <= reconnectThreshold (config s) ->
    reconnecting (fst (run (List.map loginFailed fs) s)) = true
    /\ reconnectCounter (fst (run (List.map loginFailed fs) s))
       = reconnectCounter s + Z.of_nat (List.length fs)
    /\ config (fst (run (List.map loginFailed fs) s)) = config s
    /\ logins (snd (run (List.map loginFailed fs) s)) = List.length fs
    /\ (fs <> [] ->
        exists icon,
          statusBarIcon (fst (run (List.map loginFailed fs) s)) = Some icon
          /\ text icon = reconnectingText
                           (reconnectThreshold (config s)
                            - (reconnectCounter s + Z.of_nat (List.length fs)))
          /\ command icon = "").
Proof.
  induction fs as [| [[host error] destroyed] fs IH]; intros s Hrec Hle.
  - cbn. rewrite Z.add_0_r.
    split; [ exact Hrec | repeat (split; [ reflexivity | ]) ].
    intros H. congruence.
  - cbn [List.length] in Hle. rewrite Nat2Z.inj_succ in Hle.
    destruct (onLoginError_retry error destroyed s Hrec ltac:(lia))
      as (Ho & Hl & Hr & Hc & Hcfg & _ & icon & Hi & Ht & Hcmd).
    cbn [List.map run loginFailed fst snd handle List.length].
    unfold final, outcome, effects in *.
    destruct (onLoginError error destroyed s) as [[o s1] fx1]. cbn [fst snd] in *.
    specialize (IH s1 Hr). rewrite Hc, Hcfg in IH.
    destruct (IH ltac:(lia)) as (IH1 & IH2 & IH3 & IH4 & IH5).
    assert (Hicon : exists icon',
               statusBarIcon (fst (run (List.map loginFailed fs) s1)) = Some icon'
               /\ text icon' = reconnectingText
                                 (reconnectThreshold (config s)
                                  - (reconnectCounter s + 1 + Z.of_nat (List.length fs)))
               /\ command icon' = "").
    { destruct fs as [| f fs'].
      - cbn. exists icon. rewrite Z.add_0_r. repeat split; assumption.
      - apply IH5. discriminate. }
    destruct Hicon as (icon' & Hi' & Ht' & Hcmd').
    destruct (run (List.map loginFailed fs) s1) as [s2 fx2]. cbn [fst snd] in *.
    fold (logins fx1) in Hl. rewrite logins_app, Hl, IH4, Nat2Z.inj_succ.
    split; [ assumption | split; [ lia | split; [ assumption | split; [ reflexivity | ] ] ] ].
    intros _. exists icon'. repeat split; try assumption.
    rewrite Ht'. f_equal. lia.
Qed.

(** Whatever the state and however the build of the presence ends, the
    listener of [ready] leaves the counter at 0. *)
Lemma onReady_resets (host : Host) (loud : bool) (s : State) :
  reconnectCounter (final (onReady host loud s)) = 0.
Proof.
  unfold onReady, bind, emit, get, modify, ret, final.
  destruct (loud && negb (silent (config s))), (statusBarIcon s), (activityTimer s);
    cbn -[setActivity];
    match goal with
    | |- context [setActivity host false ?s0] =>
        pose proof (setActivity_frame host false s0) as H; unfold final in H;
        destruct (setActivity host false s0) as [[[[] | e |] s1] fx]
    end;
    cbn in *; destruct H as (_ & _ & _ & H & _);
    try (unfold throw; destruct (rpc s1); cbn); exact H.
Qed.

(** With a threshold of 3, the third failure of a reconnect sequence is
    retried like the first two: the fourth login is under way, the
    indicator shows the attempts left (none), and the client is kept. *)
Lemma three_failures_start_fourth_login :
  reconnectThreshold (config Sample.ready) = 3
  /\ reconnecting (final (onClose Fulfilled Sample.ready)) = true
  /\ reconnectCounter (final (onClose Fulfilled Sample.ready)) = 0
  /\ logins (snd (run Sample.three_failures Sample.ready)) = 4%nat
  /\ statusBarIcon (fst (run Sample.three_failures Sample.ready))
     = Some {| text := "$(issue-reopened) Reconnecting: 0 attempts left";
               command := ""; shown := true |}
  /\ rpc (fst (run Sample.three_failures Sample.ready)) = Some Sample.ipc
  /\ reconnecting (fst (run Sample.three_failures Sample.ready)) = true.
Proof. repeat split; vm_compute; reflexivity. Qed.

(** C1, amended. With a threshold of 3 and a reconnect sequence that
    starts with the counter at 0, each of the first three failures starts
    a new login and leaves the attempts-left display; the fourth failure
    starts none, leaves the counter at 3 and switches the indicator to
    the manual reconnect (its text and the reconnect command), and the
    client is gone once its teardown completes. *)
Theorem reconnect_stops_after_retries
  (s : State) (f1 f2 f3 f4 : Host * JsError * Promise) :
  reconnecting s = true ->
  reconnectCounter s = 0 ->
  reconnectThreshold (config s) = 3 ->
  logins (snd (run (List.map loginFailed [f1; f2; f3]) s)) = 3%nat
  /\ (exists icon,
        statusBarIcon (fst (run (List.map loginFailed [f1; f2; f3]) s)) = Some icon
        /\ text icon = reconnectingText 0 /\ command icon = "")
  /\ logins (snd (run (List.map loginFailed [f1; f2; f3; f4]) s)) = 3%nat
  /\ (exists icon,
        statusBarIcon (fst (run (List.map loginFailed [f1; f2; f3; f4]) s)) = Some icon
        /\ text icon = reconnectText /\ command icon = "discord.reconnect")
  /\ reconnectCounter (fst (run (List.map loginFailed [f1; f2; f3; f4]) s)) = 3
  /\ (snd f4 = Fulfilled ->
      rpc (fst (run (List.map loginFailed [f1; f2; f3; f4]) s)) = None).
Proof.
  intros Hrec Hzero Hthr.
  change [f1; f2; f3; f4] with ([f1; f2; f3] ++ [f4]).
  rewrite List.map_app, run_app.
  destruct (run_retries [f1; f2; f3] s Hrec) as (H1 & H2 & H3 & H4 & H5).
  { rewrite Hzero, Hthr. cbn. lia. }
  destruct (H5 ltac:(discriminate)) as (icon & Hi & Ht & Hc). clear H5.
  rewrite Hzero, Hthr in Ht. rewrite Hzero in H2.
  destruct (run (List.map loginFailed [f1; f2; f3]) s) as [s3 fx3]. cbn [fst snd] in *.
  split; [ exact H4 | split; [ exists icon; repeat split; assumption | ] ].
  destruct f4 as [[host error] destroyed].
  destruct (onLoginError_exhausted error destroyed s3 H1) as (E1 & E2 & E3 & E4).
  { rewrite H3, Hthr, H2. cbn. lia. }
  cbn [List.map run loginFailed handle fst snd].
  unfold final, effects in *.
  destruct (onLoginError error destroyed s3) as [[o s4] fx4]. cbn [fst snd] in *.
  rewrite List.app_nil_r, logins_app, H4, E1, E2, H2.
  repeat split; try reflexivity; assumption.
Qed.

Lemma reconnect_stops_after_retries_witness :
  reconnecting Sample.reconnect_begun = true
  /\ reconnectCounter Sample.reconnect_begun = 0
  /\ reconnectThreshold (config Sample.reconnect_begun) = 3
  /\ logins (snd (run (List.map loginFailed
                         [ (Sample.idle, Sample.enoent, Fulfilled);
                           (Sample.idle, Sample.enoent, Fulfilled);
                           (Sample.idle, Sample.refused, Fulfilled);
                           (Sample.idle, Sample.enoent, Fulfilled) ])
                    Sample.reconnect_begun)) = 3%nat.
Proof.
  split; [ reflexivity | split; [ reflexivity | split; [ reflexivity | ] ] ].
  apply (reconnect_stops_after_retries Sample.reconnect_begun
           (Sample.idle, Sample.enoent, Fulfilled) (Sample.idle, Sample.enoent, Fulfilled)
           (Sample.idle, Sample.refused, Fulfilled) (Sample.idle, Sample.enoent, Fulfilled));
    reflexivity.
Defined.

(** C2. In a reconnect sequence that starts with the counter at 0, after
    N login failures in a row, N at most the threshold, the counter is N;
    and the listener of [ready] that runs next leaves it at 0, whatever
    the host shows and however the build of the presence ends. *)
Theorem reconnectCounter_counts
  (fs : list (Host * JsError * Promise)) (s : State) (host : Host) (loud : bool) :
  reconnecting s = true ->
  reconnectCounter s = 0 ->
  Z.of_nat (List.length fs) <= reconnectThreshold (config s) ->
  reconnectCounter (fst (run (List.map loginFailed fs) s)) = Z.of_nat (List.length fs)
  /\ reconnectCounter
       (fst (run (List.map loginFailed fs ++ [(host, ClientReady loud)]) s)) = 0.
Proof.
  intros Hrec Hzero Hle.
  destruct (run_retries fs s Hrec) as (_ & H2 & _).
  { rewrite Hzero. lia. }
  split; [ rewrite H2, Hzero; reflexivity | ].
  rewrite run_app. cbn [fst snd run handle].
  pose proof (onReady_resets host loud (fst (run (List.map loginFailed fs) s))) as H.
  unfold final in H.
  destruct (onReady host loud (fst (run (List.map loginFailed fs) s))) as [[o s1] fx1].
  exact H.
Qed.

Lemma reconnectCounter_counts_witness :
  reconnecting Sample.reconnect_begun = true
  /\ reconnectCounter Sample.reconnect_begun = 0
  /\ reconnectCounter
       (fst (run (List.map loginFailed
                    [ (Sample.idle, Sample.enoent, Fulfilled);
                      (Sample.idle, Sample.refused, Fulfilled) ])
               Sample.reconnect_begun)) = 2.
Proof.
  split; [ reflexivity | split; [ reflexivity | ] ].
  apply (proj1 (reconnectCounter_counts
                  [ (Sample.idle, Sample.enoent, Fulfilled);
                    (Sample.idle, Sample.refused, Fulfilled) ]
                  Sample.reconnect_begun Sample.editing false
                  eq_refl eq_refl ltac:(cbn; lia))).
Defined.

(** ** The calls of the presence builder *)

Section Emits.

Variable P : Effect -> bool.

Lemma emits_ret {A} (a : A) : emits_only P (ret a).
Proof. intros s. reflexivity. Qed.

Lemma emits_throw {A} (e : JsError) : emits_only P (@throw A e).
Proof. intros s. reflexivity. Qed.

Lemma emits_get : emits_only P get.
Proof. intros s. reflexivity. Qed.

Lemma emits_modify (g : State -> State) : emits_only P (modify g).
Proof. intros s. reflexivity. Qed.

Lemma emits_lift {A} (r : Result A) : emits_only P (lift r).
Proof. intros s. reflexivity. Qed.

Lemma emits_liftOutcome {A} (o : Outcome A) : emits_only P (liftOutcome o).
Proof. intros s. reflexivity. Qed.

Lemma emits_await (p : Promise) : emits_only P (await p).
Proof. intros s. reflexivity. Qed.

Lemma emits_emit (e : Effect) : P e = true -> emits_only P (emit e).
Proof. intros H s. cbn. rewrite H. reflexivity. Qed.

Lemma emits_bind {A B} (m : M A) (f : A -> M B) :
  emits_only P m -> (forall a, emits_only P (f a)) -> emits_only P (bind m f).
Proof.
  intros Hm Hf s. rewrite effects_bind.
  destruct (outcome (m s)) as [a | e |]; try apply Hm.
  rewrite List.forallb_app, Hm, Hf. reflexivity.
Qed.

End Emits.

(** One syntax-directed step of a proof about the effects of a handler. *)
Ltac emits_step :=
  lazymatch goal with
  | |- emits_only _ (bind _ _) => apply emits_bind; [ | intros ]
  | |- emits_only _ (ret _) => apply emits_ret
  | |- emits_only _ (throw _) => apply emits_throw
  | |- emits_only _ get => apply emits_get
  | |- emits_only _ (modify _) => apply emits_modify
  | |- emits_only _ (emit _) => apply emits_emit; reflexivity
  | |- emits_only _ (lift _) => apply emits_lift
  | |- emits_only _ (liftOutcome _) => apply emits_liftOutcome
  | |- emits_only _ (await _) => apply emits_await
  | |- emits_only _ (let _ := _ in _) => cbv zeta
  | |- emits_only _ (if ?b then _ else _) => destruct b
  | |- emits_only _ (match ?x with _ => _ end) => destruct x
  end.

Lemma includes_empty (needle : string) :
  needle <> EmptyString -> JsString.includes needle EmptyString = false.
Proof. destruct needle; [ congruence | reflexivity ]. Qed.

(** A run of [getFileDetails] leaves the state and calls [statSync] once
    when the template asks for the size and an editor is focused, and
    nothing otherwise. *)
Lemma getFileDetails_run (host : Host) (rawString : string) (s : State) :
  exists o, getFileDetails host rawString s = (o, s, statOf host rawString).
Proof.
  unfold getFileDetails, document, statOf.
  destruct (String.eqb rawString EmptyString) eqn:E.
  { apply String.eqb_eq in E. subst rawString. cbn.
    destruct (activeTextEditor host); eexists; reflexivity. }
  destruct (JsString.includes "{totallines}" rawString);
  destruct (JsString.includes "{currentline}" rawString);
  destruct (JsString.includes "{currentcolumn}" rawString);
  destruct (JsString.includes "{filesize}" rawString);
  destruct (activeTextEditor host) as [ed |]; cbn;
  try (destruct (statSync host (fileName ed)) as [bytes | e]; cbn;
       try (destruct (formatSize bytes) as [t | e |]; cbn));
  eexists; reflexivity.
Qed.

Lemma langLabelUpper_run (host : Host) (key : Value) (s : State) :
  exists o, langLabelUpper host key s = (o, s, []).
Proof.
  unfold langLabelUpper.
  destruct (truthy key); [ | eexists; reflexivity ].
  destruct (js_or (image_of key) key); eexists; reflexivity.
Qed.

Lemma generateDetails_run (host : Host) (debugging editing idling : TemplateSlot)
  (key : Value) (s : State) :
  exists o,
    generateDetails host debugging editing idling key s
    = (o, s, statOf host (template (config s)
                            (if activeDebugSession host then debugging else editing))).
Proof.
  unfold generateDetails, bind at 1, get.
  unfold statOf at 1.
  destruct (activeTextEditor host) as [ed |] eqn:Hed; [ | eexists; reflexivity ].
  destruct (getFileDetails_run host
              (template (config s) (if activeDebugSession host then debugging else editing)) s)
    as [o1 H1].
  unfold bind. rewrite H1. unfold statOf. rewrite Hed.
  destruct o1 as [facts | e |]; try (eexists; reflexivity).
  destruct (langLabelUpper_run host key s) as [o2 H2]. rewrite H2.
  destruct o2 as [upper | e |]; eexists; cbn; rewrite ?List.app_nil_r; reflexivity.
Qed.

Lemma resolveLargeImageKey_run (host : Host) (s : State) :
  exists o, resolveLargeImageKey host s = (o, s, []).
Proof.
  unfold resolveLargeImageKey.
  destruct (activeTextEditor host) as [ed |]; [ | eexists; reflexivity ].
  unfold bind, lift, ret.
  destruct (find_key host (basename host (fileName ed)) (knownExtentions host));
    eexists; reflexivity.
Qed.

Lemma this_key_run (host : Host) (s : State) :
  this_key host s
  = (match this_largeImageKey host with
     | Some v => Returned v
     | None => Thrown (TypeError "Cannot read property 'largeImageKey' of undefined")
     end, s, []).
Proof. unfold this_key. destruct (this_largeImageKey host); reflexivity. Qed.

(** The runs of the partial update: it stops early with the state as it
    was, or it completes and assigns the patched object. *)
Lemma partialUpdate_run (host : Host) (s : State) :
  (exists o fx,
     partialUpdate host s = (o, s, fx)
     /\ o <> Returned tt
     /\ (fx = []
         \/ fx = statOf host (template (config s) (detailsSlot host))
         \/ fx = statOf host (template (config s) (detailsSlot host))
                 ++ statOf host (template (config s) (stateSlot host))))
  \/ (exists details state,
        partialUpdate host s
        = (Returned tt,
           set_activity (Some (partialActivity host s details state)) s,
           statOf host (template (config s) (detailsSlot host))
           ++ statOf host (template (config s) (stateSlot host)))).
Proof.
  unfold partialUpdate, detailsSlot, stateSlot.
  destruct (generateDetails_run host detailsDebugging detailsEditing detailsIdle) with
    (key := match this_largeImageKey host with Some v => v | None => VNull end) (s := s)
    as [o1 H1].
  destruct (generateDetails_run host lowerDetailsDebugging lowerDetailsEditing lowerDetailsIdle)
    with (key := match this_largeImageKey host with Some v => v | None => VNull end) (s := s)
    as [o2 H2].
  unfold bind. rewrite !this_key_run.
  destruct (this_largeImageKey host) as [v |] eqn:Hthis.
  - rewrite H1. destruct o1 as [details | e |].
    + rewrite this_key_run, Hthis, H2. destruct o2 as [state | e |].
      * right. exists details, state. cbn. rewrite List.app_nil_r. reflexivity.
      * left. do 2 eexists. split; [ reflexivity | split; [ discriminate | ] ].
        right. right. reflexivity.
      * left. do 2 eexists. split; [ reflexivity | split; [ discriminate | ] ].
        right. right. reflexivity.
    + left. do 2 eexists. split; [ reflexivity | split; [ discriminate | ] ].
      right. left. reflexivity.
    + left. do 2 eexists. split; [ reflexivity | split; [ discriminate | ] ].
      right. left. reflexivity.
  - left. do 2 eexists. split; [ reflexivity | split; [ discriminate | ] ].
    left. reflexivity.
Qed.

(** The runs of the full rebuild: [lastKnownFile] is assigned first; then
    the rebuild stops early, or it completes and assigns the new object. *)
Lemma fullRebuild_run (host : Host) (workspaceElapsedTime_ : bool) (s : State) :
  (exists o fx,
     fullRebuild host workspaceElapsedTime_ s
     = (o, set_lastKnownFile (focusedFile host) s, fx)
     /\ o <> Returned tt
     /\ (fx = []
         \/ fx = statOf host (template (config s) (detailsSlot host))
         \/ fx = statOf host (template (config s) (detailsSlot host))
                 ++ statOf host (template (config s) (stateSlot host))))
  \/ (exists key details state largeImageText,
        resolveLargeImageKey host (set_lastKnownFile (focusedFile host) s)
        = (Returned key, set_lastKnownFile (focusedFile host) s, [])
        /\ fullRebuild host workspaceElapsedTime_ s
           = (Returned tt,
              set_activity
                (Some (rebuiltActivity host workspaceElapsedTime_ s key details state
                         largeImageText))
                (set_lastKnownFile (focusedFile host) s),
              statOf host (template (config s) (detailsSlot host))
              ++ statOf host (template (config s) (stateSlot host)))).
Proof.
  set (s0 := set_lastKnownFile (focusedFile host) s).
  destruct (resolveLargeImageKey_run host s0) as [o0 H0].
  pose proof (fun key => generateDetails_run host detailsDebugging detailsEditing detailsIdle
                           key s0) as G1.
  pose proof (fun key => generateDetails_run host lowerDetailsDebugging lowerDetailsEditing
                           lowerDetailsIdle key s0) as G2.
  pose proof (fun key => langLabelUpper_run host key s0) as G3.
  change (config s0) with (config s) in G1, G2.
  fold (detailsSlot host) in G1. fold (stateSlot host) in G2.
  assert (Hr : fullRebuild host workspaceElapsedTime_ s
               = bind (resolveLargeImageKey host)
                   (fun key =>
                      s1 <- get ;;
                      details <- generateDetails host detailsDebugging detailsEditing
                                   detailsIdle key ;;
                      state <- generateDetails host lowerDetailsDebugging lowerDetailsEditing
                                 lowerDetailsIdle key ;;
                      largeImageText <-
                        match activeTextEditor host with
                        | Some ed =>
                            upper <- langLabelUpper host key ;;
                            let replaced :=
                              JsString.replace "{LANG}" upper
                                (JsString.replace "{lang}" (toString (langLabel key))
                                   (largeImage (config s1))) in
                            ret (if String.eqb replaced EmptyString
                                 then JsString.padEnd 2 zwsp (languageId ed) else replaced)
                        | None => ret (largeImageIdle (config s1))
                        end ;;
                      modify (set_activity
                                (Some (rebuiltActivity host workspaceElapsedTime_ s1 key
                                         details state largeImageText)))) s0).
  { unfold fullRebuild. fold (focusedFile host). rewrite bind_modify. reflexivity. }
  assert (Hed : exists oed, activeTextEditor host = oed) by (eexists; reflexivity).
  destruct Hed as [oed Hed].
  destruct o0 as [key | e |].
  2, 3: rewrite Hr; unfold bind; rewrite H0; left; do 2 eexists;
        (split; [ reflexivity | split; [ discriminate | left; reflexivity ] ]).
  destruct (G1 key) as [o1 H1]. destruct (G2 key) as [o2 H2]. destruct (G3 key) as [o3 H3].
  clear G1 G2 G3.
  rewrite Hr. clear Hr. unfold bind, get. rewrite H0. cbv beta iota. rewrite H1.
  destruct o1 as [details | e |]; cbv beta iota;
    [ | left; do 2 eexists; (split; [ reflexivity | split; [ discriminate | ] ]);
        right; left; reflexivity
      | left; do 2 eexists; (split; [ reflexivity | split; [ discriminate | ] ]);
        right; left; reflexivity ].
  rewrite H2.
  destruct o2 as [state | e |]; cbv beta iota;
    [ | left; do 2 eexists; (split; [ reflexivity | split; [ discriminate | ] ]);
        right; right; reflexivity
      | left; do 2 eexists; (split; [ reflexivity | split; [ discriminate | ] ]);
        right; right; reflexivity ].
  rewrite Hed. destruct oed as [ed |].
  - rewrite H3.
    destruct o3 as [upper | e |]; cbn; rewrite ?List.app_nil_r.
    + right. exists key, details, state. eexists. split; reflexivity.
    + left. do 2 eexists. split; [ reflexivity | split; [ discriminate | ] ].
      right. right. reflexivity.
    + left. do 2 eexists. split; [ reflexivity | split; [ discriminate | ] ].
      right. right. reflexivity.
  - cbn. rewrite ?List.app_nil_r.
    right. exists key, details, state. eexists. split; reflexivity.
Qed.

Lemma setActivity_unfold (host : Host) (workspaceElapsedTime_ : bool) (s : State) :
  setActivity host workspaceElapsedTime_ s
  = match rpc s with
    | None => (Returned tt, s, [])
    | Some _ => if sameFile host s then partialUpdate host s
                else fullRebuild host workspaceElapsedTime_ s
    end.
Proof.
  unfold setActivity, bind, get.
  destruct (rpc s); [ | reflexivity ].
  destruct (sameFile host s).
  - destruct (partialUpdate host s) as [[o s1] fx]. reflexivity.
  - destruct (fullRebuild host workspaceElapsedTime_ s) as [[o s1] fx]. reflexivity.
Qed.

(** ** The two branches of [setActivity] *)




Lemma statOf_length (host : Host) (rawString : string) :
  (List.length (statOf host rawString) <= 1)%nat.
Proof.
  unfold statOf. destruct (activeTextEditor host); [ | cbn; lia ].
  destruct (JsString.includes "{filesize}" rawString); cbn; lia.
Qed.

Lemma statOf_focused (host : Host) (rawString : string) (e : Effect) :
  List.In e (statOf host rawString) ->
  exists ed, activeTextEditor host = Some ed /\ e = StatSync (fileName ed).
Proof.
  unfold statOf. destruct (activeTextEditor host) as [ed |]; [ | intros [] ].
  destruct (JsString.includes "{filesize}" rawString); [ | intros [] ].
  intros [H | []]. exists ed. split; congruence.
Qed.

Lemma statOf_absent (host : Host) (rawString : string) :
  JsString.includes "{filesize}" rawString = false -> statOf host rawString = [].
Proof.
  intros H. unfold statOf. rewrite H. destruct (activeTextEditor host); reflexivity.
Qed.

(** The effects of a build of the presence: none, those of the first
    line, or those of both lines; those of both when it completes. *)
Lemma setActivity_effects (host : Host) (workspaceElapsedTime_ : bool) (s : State) :
  (effects (setActivity host workspaceElapsedTime_ s) = []
   \/ effects (setActivity host workspaceElapsedTime_ s)
      = statOf host (template (config s) (detailsSlot host))
   \/ effects (setActivity host workspaceElapsedTime_ s)
      = statOf host (template (config s) (detailsSlot host))
        ++ statOf host (template (config s) (stateSlot host)))
  /\ (rpc s <> None ->
      outcome (setActivity host workspaceElapsedTime_ s) = Returned tt ->
      effects (setActivity host workspaceElapsedTime_ s)
      = statOf host (template (config s) (detailsSlot host))
        ++ statOf host (template (config s) (stateSlot host))).
Proof.
  rewrite setActivity_unfold.
  destruct (rpc s) as [client |]; [ | split; [ left; reflexivity | congruence ] ].
  destruct (sameFile host s).
  - destruct (partialUpdate_run host s) as [(o & fx & E & Ho & Hfx) | (d & st & E)];
      rewrite E; cbn.
    + split; [ exact Hfx | intros _ H; congruence ].
    + split; [ right; right; reflexivity | reflexivity ].
  - destruct (fullRebuild_run host workspaceElapsedTime_ s)
      as [(o & fx & E & Ho & Hfx) | (key & d & st & text & _ & E)]; rewrite E; cbn.
    + split; [ exact Hfx | intros _ H; congruence ].
    + split; [ right; right; reflexivity | reflexivity ].
Qed.

(** X1. A build of the presence makes none of the calls that act on the
    world (the console, the messages of the window, the client, the
    timers, the status bar) but [statSync], on the focused file and at
    most twice, once per line whose template asks for the size; it makes
    no such call when neither template of the two lines asks for it, and
    exactly the calls of both lines when it completes. What the build
    asks of the workspace, of the clock and of [RegExp] is read from the
    host and is not among these calls. *)
Theorem presence_build_calls (host : Host) (workspaceElapsedTime_ : bool) (s : State) :
  (forall e, List.In e (effects (setActivity host workspaceElapsedTime_ s)) ->
             exists ed, activeTextEditor host = Some ed /\ e = StatSync (fileName ed))
  /\ (List.length (effects (setActivity host workspaceElapsedTime_ s)) <= 2)%nat
  /\ (JsString.includes "{filesize}" (template (config s) (detailsSlot host)) = false ->
      JsString.includes "{filesize}" (template (config s) (stateSlot host)) = false ->
      effects (setActivity host workspaceElapsedTime_ s) = [])
  /\ (rpc s <> None ->
      outcome (setActivity host workspaceElapsedTime_ s) = Returned tt ->
      effects (setActivity host workspaceElapsedTime_ s)
      = statOf host (template (config s) (detailsSlot host))
        ++ statOf host (template (config s) (stateSlot host))).
Proof.
  destruct (setActivity_effects host workspaceElapsedTime_ s) as [Hfx Hdone].
  pose proof (statOf_length host (template (config s) (detailsSlot host))) as L1.
  pose proof (statOf_length host (template (config s) (stateSlot host))) as L2.
  split; [ | split; [ | split; [ | exact Hdone ] ] ].
  - intros e He. destruct Hfx as [H | [H | H]]; rewrite H in He.
    + destruct He.
    + eapply statOf_focused; eassumption.
    + apply List.in_app_or in He. destruct He; eapply statOf_focused; eassumption.
  - destruct Hfx as [H | [H | H]]; rewrite H; rewrite ?List.length_app; cbn; lia.
  - intros H1 H2. rewrite (statOf_absent host _ H1), (statOf_absent host _ H2) in Hfx.
    destruct Hfx as [H | [H | H]]; exact H.
Qed.

Lemma presence_build_calls_witness :
  JsString.includes "{filesize}" (template (config Sample.ready) (detailsSlot Scenario.onNotes))
  = false
  /\ JsString.includes "{filesize}" (template (config Sample.ready) (stateSlot Scenario.onNotes))
     = false
  /\ effects (setActivity Scenario.onNotes true Sample.ready) = []
  /\ rpc Scenario.readyWithSize <> None
  /\ outcome (setActivity Scenario.onNotes true Scenario.readyWithSize) = Returned tt
  /\ effects (setActivity Scenario.onNotes true Scenario.readyWithSize)
     = statOf Scenario.onNotes (template (config Scenario.readyWithSize)
                                  (detailsSlot Scenario.onNotes))
       ++ statOf Scenario.onNotes (template (config Scenario.readyWithSize)
                                     (stateSlot Scenario.onNotes)).
Proof.
  split; [ reflexivity | split; [ reflexivity | split; [ | split; [ discriminate | ] ] ] ].
  - apply (proj1 (proj2 (proj2 (presence_build_calls Scenario.onNotes true Sample.ready))));
      reflexivity.
  - assert (Hdone : outcome (setActivity Scenario.onNotes true Scenario.readyWithSize)
                    = Returned tt) by (vm_compute; reflexivity).
    split; [ exact Hdone | ].
    apply (proj2 (proj2 (proj2
             (presence_build_calls Scenario.onNotes true Scenario.readyWithSize))));
      [ discriminate | exact Hdone ].
Defined.

Example size_template_stats_once :
  effects (setActivity Scenario.onNotes true Scenario.readyWithSize)
  = [StatSync "/home/u/project/notes.xyz"].
Proof. vm_compute. reflexivity. Qed.

Lemma field_partialActivity (host : Host) (s : State) (details state k : string) :
  k <> "details" -> k <> "state" -> k <> "smallImageKey" ->
  partialActivity host s details state !! k = field k s.
Proof.
  intros H1 H2 H3. unfold partialActivity, field.
  rewrite !lookup_insert_ne by congruence.
  destruct (activity s); [ reflexivity | apply lookup_empty ].
Qed.

Lemma previousTimestamp_field (s : State) (v : Value) :
  field "startTimestamp" s = Some v -> previousTimestamp s = v.
Proof.
  unfold field, previousTimestamp. destruct (activity s) as [a |]; [ | discriminate ].
  intros H. rewrite H. reflexivity.
Qed.

(** X2. In elapsed-time mode, a start timestamp that is published and is
    not zero survives every build made while an editor is focused:
    partial update or full rebuild, same file or another, completed or
    aborted by an error. *)
Theorem start_timestamp_kept
  (host : Host) (s : State) (ed : TextEditor) (v : Value) :
  activeTextEditor host = Some ed ->
  field "startTimestamp" s = Some v ->
  truthy v = true ->
  field "startTimestamp" (final (setActivity host true s)) = Some v.
Proof.
  intros Hed Hv Htruthy. rewrite setActivity_unfold.
  destruct (rpc s) as [client |]; [ | exact Hv ].
  destruct (sameFile host s).
  - destruct (partialUpdate_run host s) as [(o & fx & E & _) | (d & st & E)]; rewrite E.
    + exact Hv.
    + unfold final, field. cbn. rewrite field_partialActivity by discriminate. exact Hv.
  - destruct (fullRebuild_run host true s) as [(o & fx & E & _) | (key & d & st & text & _ & E)];
      rewrite E.
    + exact Hv.
    + unfold final, field, rebuiltActivity, rebuiltTimestamp. cbn.
      rewrite Hed, (previousTimestamp_field s v Hv), Htruthy. reflexivity.
Qed.

Lemma start_timestamp_kept_witness :
  activeTextEditor Scenario.onNotes = Some Scenario.notes
  /\ field "startTimestamp" Scenario.readyWithSize = Some (VNum 1000)
  /\ lastKnownFile Scenario.readyWithSize <> Some (fileName Scenario.notes)
  /\ field "startTimestamp" (final (setActivity Scenario.onNotes true Scenario.readyWithSize))
     = Some (VNum 1000).
Proof.
  split; [ reflexivity | split; [ reflexivity | split; [ discriminate | ] ] ].
  apply (start_timestamp_kept Scenario.onNotes Scenario.readyWithSize Scenario.notes (VNum 1000));
    reflexivity.
Defined.

(** X3. A full rebuild that completes with an editor focused remembers
    the focused file and, outside elapsed-time mode or without a previous
    timestamp other than zero, null or undefined, starts the timestamp at
    the current time. *)
Theorem start_timestamp_reset
  (host : Host) (workspaceElapsedTime_ : bool) (s : State) (client : Client) (ed : TextEditor) :
  rpc s = Some client ->
  activeTextEditor host = Some ed ->
  sameFile host s = false ->
  outcome (setActivity host workspaceElapsedTime_ s) = Returned tt ->
  workspaceElapsedTime_ = false \/ truthy (previousTimestamp s) = false ->
  field "startTimestamp" (final (setActivity host workspaceElapsedTime_ s))
  = Some (VNum (now host))
  /\ lastKnownFile (final (setActivity host workspaceElapsedTime_ s)) = Some (fileName ed).
Proof.
  intros Hrpc Hed Hsame Hdone Hmode. rewrite setActivity_unfold in *.
  rewrite Hrpc, Hsame in *.
  destruct (fullRebuild_run host workspaceElapsedTime_ s)
    as [(o & fx & E & Ho & _) | (key & d & st & text & _ & E)]; rewrite E in *.
  - cbn in Hdone. congruence.
  - unfold final, field, rebuiltActivity, rebuiltTimestamp, focusedFile. cbn.
    rewrite Hed. split; [ | reflexivity ].
    destruct Hmode as [-> | ->]; [ rewrite andb_false_r | ]; reflexivity.
Qed.

Lemma start_timestamp_reset_witness :
  rpc Sample.ready = Some Sample.ipc
  /\ activeTextEditor Scenario.onNotes = Some Scenario.notes
  /\ sameFile Scenario.onNotes Sample.ready = false
  /\ field "startTimestamp" (final (setActivity Scenario.onNotes false Sample.ready))
     = Some (VNum 3000)
  /\ lastKnownFile (final (setActivity Scenario.onNotes false Sample.ready))
     = Some "/home/u/project/notes.xyz".
Proof.
  split; [ reflexivity | split; [ reflexivity | split; [ reflexivity | ] ] ].
  apply (start_timestamp_reset Scenario.onNotes false Sample.ready Sample.ipc Scenario.notes);
    try reflexivity.
  left. reflexivity.
Defined.

(** ** The key of the large image *)

Lemma find_key_none (host : Host) (name : string) (table : list (string * string)) :
  List.Forall (fun entry => key_matches host name (fst entry) = Ok false) table ->
  find_key host name table = Ok None.
Proof.
  induction 1 as [| [key image] rest Hkey _ IH]; cbn; [ reflexivity | ].
  cbn in Hkey. rewrite Hkey. exact IH.
Qed.

Lemma find_key_first (host : Host) (name key image : string)
  (before rest : list (string * string)) :
  List.Forall (fun entry => key_matches host name (fst entry) = Ok false) before ->
  key_matches host name key = Ok true ->
  find_key host name (before ++ (key, image) :: rest) = Ok (Some key).
Proof.
  intros Hbefore Hkey.
  induction Hbefore as [| [key' image'] before' Hkey' _ IH]; cbn.
  - rewrite Hkey. reflexivity.
  - cbn in Hkey'. rewrite Hkey'. exact IH.
Qed.

Lemma find_entry_first (host : Host) (name key image : string)
  (before rest : list (string * string)) :
  List.Forall (fun entry => key_matches host name (fst entry) = Ok false) before ->
  key_matches host name key = Ok true ->
  List.find (fun entry => String.eqb (fst entry) key) (before ++ (key, image) :: rest)
  = Some (key, image).
Proof.
  intros Hbefore Hkey.
  induction Hbefore as [| [key' image'] before' Hkey' _ IH]; cbn.
  - rewrite String.eqb_refl. reflexivity.
  - cbn in Hkey'. destruct (String.eqb key' key) eqn:E; [ | exact IH ].
    apply String.eqb_eq in E. subst key'. congruence.
Qed.

Lemma find_entry_absent (name : string) (table : list (string * string)) :
  List.Forall (fun entry => fst entry <> name) table ->
  List.find (fun entry => String.eqb (fst entry) name) table = None.
Proof.
  induction 1 as [| entry rest Hne _ IH]; cbn; [ reflexivity | ].
  destruct (String.eqb (fst entry) name) eqn:E; [ | exact IH ].
  apply String.eqb_eq in E. contradiction.
Qed.

(** What a completed full rebuild publishes as [largeImageKey]. *)
Lemma rebuilt_largeImageKey
  (host : Host) (workspaceElapsedTime_ : bool) (s : State) (client : Client) (key : Value) :
  rpc s = Some client ->
  sameFile host s = false ->
  outcome (setActivity host workspaceElapsedTime_ s) = Returned tt ->
  outcome (resolveLargeImageKey host (set_lastKnownFile (focusedFile host) s)) = Returned key ->
  field "largeImageKey" (final (setActivity host workspaceElapsedTime_ s))
  = Some (langLabel key).
Proof.
  intros Hrpc Hsame Hdone Hkey. rewrite setActivity_unfold in *.
  rewrite Hrpc, Hsame in *.
  destruct (fullRebuild_run host workspaceElapsedTime_ s)
    as [(o & fx & E & Ho & _) | (key' & d & st & text & K & E)]; rewrite E in *.
  - cbn in Hdone. congruence.
  - rewrite K in Hkey. cbn in Hkey. inversion Hkey. subst key'. reflexivity.
Qed.

(** X4. When no key of the extension table matches the name of the
    focused file (and the table has no key spelled undefined), a completed
    full rebuild publishes the language id of the document as the key of
    the large image if the id is listed in [knownLanguages] and is not
    empty, and [txt] otherwise. *)
Theorem large_image_falls_back_to_language
  (host : Host) (workspaceElapsedTime_ : bool) (s : State) (client : Client) (ed : TextEditor) :
  rpc s = Some client ->
  activeTextEditor host = Some ed ->
  sameFile host s = false ->
  outcome (setActivity host workspaceElapsedTime_ s) = Returned tt ->
  List.Forall (fun entry => key_matches host (basename host (fileName ed)) (fst entry) = Ok false)
    (knownExtentions host) ->
  List.Forall (fun entry => fst entry <> "undefined") (knownExtentions host) ->
  field "largeImageKey" (final (setActivity host workspaceElapsedTime_ s))
  = Some (VStr (if List.existsb (String.eqb (languageId ed)) (knownLanguages host)
                   && negb (String.eqb (languageId ed) EmptyString)
                then languageId ed else "txt")).
Proof.
  intros Hrpc Hed Hsame Hdone Hnone Hundef.
  rewrite (rebuilt_largeImageKey host workspaceElapsedTime_ s client
             (if List.existsb (String.eqb (languageId ed)) (knownLanguages host)
              then VStr (languageId ed) else VNull)) by
    (try assumption;
     unfold resolveLargeImageKey, extension_entry; rewrite Hed; unfold bind, lift, ret;
     rewrite (find_key_none host _ _ Hnone); cbn;
     rewrite (find_entry_absent _ _ Hundef); reflexivity).
  destruct (List.existsb (String.eqb (languageId ed)) (knownLanguages host)); [ | reflexivity ].
  unfold langLabel, js_or. cbn.
  destruct (String.eqb (languageId ed) EmptyString); reflexivity.
Qed.

Lemma large_image_falls_back_to_language_witness :
  activeTextEditor Scenario.onNotes = Some Scenario.notes
  /\ sameFile Scenario.onNotes Sample.ready = false
  /\ field "largeImageKey" (final (setActivity Scenario.onNotes false Sample.ready))
     = Some (VStr "python").
Proof.
  split; [ reflexivity | split; [ reflexivity | ] ].
  apply (large_image_falls_back_to_language Scenario.onNotes false Sample.ready Sample.ipc
           Scenario.notes); try reflexivity.
  - repeat constructor.
  - repeat constructor; discriminate.
Defined.

(** X5. The first key of the extension table that matches the name of
    the focused file decides the key of the large image, whatever the
    language id of the document: a completed full rebuild publishes the
    image of that key, if it is not empty. *)
Theorem large_image_first_match_wins
  (host : Host) (workspaceElapsedTime_ : bool) (s : State) (client : Client) (ed : TextEditor)
  (before rest : list (string * string)) (key image : string) :
  rpc s = Some client ->
  activeTextEditor host = Some ed ->
  sameFile host s = false ->
  outcome (setActivity host workspaceElapsedTime_ s) = Returned tt ->
  knownExtentions host = before ++ (key, image) :: rest ->
  List.Forall (fun entry => key_matches host (basename host (fileName ed)) (fst entry) = Ok false)
    before ->
  key_matches host (basename host (fileName ed)) key = Ok true ->
  image <> EmptyString ->
  field "largeImageKey" (final (setActivity host workspaceElapsedTime_ s)) = Some (VStr image).
Proof.
  intros Hrpc Hed Hsame Hdone Htable Hbefore Hkey Himage.
  rewrite (rebuilt_largeImageKey host workspaceElapsedTime_ s client (VEntry image)) by
    (try assumption;
     unfold resolveLargeImageKey, extension_entry; rewrite Hed, Htable; unfold bind, lift, ret;
     rewrite (find_key_first host _ key image before rest Hbefore Hkey); cbn;
     rewrite (find_entry_first host _ key image before rest Hbefore Hkey); reflexivity).
  unfold langLabel, js_or. cbn.
  destruct (String.eqb image EmptyString) eqn:E; [ | reflexivity ].
  apply String.eqb_eq in E. contradiction.
Qed.

Lemma large_image_first_match_wins_witness :
  knownExtentions Sample.editing = [] ++ (".ts", "typescript") :: [(".rs", "rust")]
  /\ key_matches Sample.editing (basename Sample.editing (fileName Sample.mainTs)) ".ts" = Ok true
  /\ field "largeImageKey"
       (final (setActivity Sample.editing false (set_lastKnownFile None Sample.ready)))
     = Some (VStr "typescript").
Proof.
  split; [ reflexivity | split; [ reflexivity | ] ].
  apply (large_image_first_match_wins Sample.editing false (set_lastKnownFile None Sample.ready)
           Sample.ipc Sample.mainTs [] [(".rs", "rust")] ".ts" "typescript");
    try reflexivity.
  - constructor.
  - discriminate.
Defined.

(** ** A file that cannot be read *)

Lemma getFileDetails_stat_error (host : Host) (rawString : string) (s : State)
  (ed : TextEditor) (e : JsError) :
  activeTextEditor host = Some ed ->
  JsString.includes "{filesize}" rawString = true ->
  statSync host (fileName ed) = Err e ->
  getFileDetails host rawString s = (Thrown e, s, [StatSync (fileName ed)]).
Proof.
  intros Hed Hsize Hstat. unfold getFileDetails, document.
  destruct (String.eqb rawString EmptyString) eqn:E.
  { apply String.eqb_eq in E. subst rawString. discriminate Hsize. }
  rewrite Hsize, Hed.
  destruct (JsString.includes "{totallines}" rawString);
  destruct (JsString.includes "{currentline}" rawString);
  destruct (JsString.includes "{currentcolumn}" rawString);
  cbn; rewrite Hstat; reflexivity.
Qed.

(** X6. When the search of the table of extensions for the focused file
    completes (no key written as a regular expression throws), the
    template of the first line asks for the size and [statSync] throws
    for the focused file (a document that is not on disk), a full rebuild
    throws that error after the one call and leaves the activity as it
    was; [lastKnownFile] already names the file, so the next build on
    this file takes the partial update. *)
Theorem stat_failure_aborts_rebuild
  (host : Host) (workspaceElapsedTime_ : bool) (s : State) (client : Client)
  (ed : TextEditor) (found : option string) (e : JsError) :
  rpc s = Some client ->
  activeTextEditor host = Some ed ->
  sameFile host s = false ->
  find_key host (basename host (fileName ed)) (knownExtentions host) = Ok found ->
  JsString.includes "{filesize}" (template (config s) (detailsSlot host)) = true ->
  statSync host (fileName ed) = Err e ->
  setActivity host workspaceElapsedTime_ s
  = (Thrown e, set_lastKnownFile (Some (fileName ed)) s, [StatSync (fileName ed)])
  /\ sameFile host (final (setActivity host workspaceElapsedTime_ s)) = true.
Proof.
  intros Hrpc Hed Hsame Hfound Hsize Hstat.
  assert (E : setActivity host workspaceElapsedTime_ s
              = (Thrown e, set_lastKnownFile (Some (fileName ed)) s, [StatSync (fileName ed)])).
  { rewrite setActivity_unfold, Hrpc, Hsame.
    unfold fullRebuild. rewrite bind_modify, Hed.
    unfold bind at 1. unfold resolveLargeImageKey. rewrite Hed.
    unfold bind at 1, lift. rewrite Hfound. cbn [ret app].
    unfold bind at 1, get. unfold bind at 1.
    unfold generateDetails at 1. unfold bind at 1, get. rewrite Hed.
    unfold bind at 1. fold (detailsSlot host).
    rewrite (getFileDetails_stat_error host _ _ ed e Hed Hsize Hstat). reflexivity. }
  split; [ exact E | ].
  rewrite E. unfold final, sameFile. cbn. rewrite Hed. apply String.eqb_refl.
Qed.

Lemma stat_failure_aborts_rebuild_witness :
  rpc Scenario.readyWithSize = Some Sample.ipc
  /\ statSync Scenario.unsaved (fileName Scenario.notes) = Err Scenario.missing
  /\ setActivity Scenario.unsaved false Scenario.readyWithSize
     = (Thrown Scenario.missing,
        set_lastKnownFile (Some (fileName Scenario.notes)) Scenario.readyWithSize,
        [StatSync (fileName Scenario.notes)]).
Proof.
  split; [ reflexivity | split; [ reflexivity | ] ].
  apply (proj1 (stat_failure_aborts_rebuild Scenario.unsaved false Scenario.readyWithSize
                  Sample.ipc Scenario.notes None Scenario.missing
                  eq_refl eq_refl eq_refl eq_refl eq_refl eq_refl)).
Defined.

(** ** The listener of [ready] *)

Lemma statOf_only_stats (host : Host) (rawString : string) :
  List.forallb isStatSync (statOf host rawString) = true.
Proof.
  unfold statOf. destruct (activeTextEditor host); [ | reflexivity ].
  destruct (JsString.includes "{filesize}" rawString); reflexivity.
Qed.

Lemma setActivity_only_stats (host : Host) (workspaceElapsedTime_ : bool) (s : State) :
  List.forallb isStatSync (effects (setActivity host workspaceElapsedTime_ s)) = true.
Proof.
  destruct (setActivity_effects host workspaceElapsedTime_ s) as [[H | [H | H]] _]; rewrite H.
  - reflexivity.
  - apply statOf_only_stats.
  - rewrite List.forallb_app, !statOf_only_stats. reflexivity.
Qed.

(** Calls of [statSync] are no calls of any other kind. *)
Lemma only_stats (fx : list Effect) :
  List.forallb isStatSync fx = true ->
  timersChange fx = 0 /\ logins fx = 0%nat /\ List.filter isInformation fx = []
  /\ List.filter isSend fx = [] /\ List.filter isDestroy fx = []
  /\ errorNotices fx = [].
Proof.
  unfold logins, errorNotices.
  induction fx as [| e fx IH]; cbn; [ repeat split | ].
  destruct e; cbn; try discriminate. exact IH.
Qed.

Lemma timersChange_app (fx1 fx2 : list Effect) :
  timersChange (fx1 ++ fx2) = timersChange fx1 + timersChange fx2.
Proof.
  unfold timersChange. induction fx1 as [| e fx1 IH]; cbn; [ reflexivity | ].
  rewrite IH. lia.
Qed.

(** The listener of [ready] in three steps: what precedes the build of
    the presence, the build, and what follows it. *)
Lemma onReady_run (host : Host) (loud : bool) (s : State) :
  onReady host loud s
  = match setActivity host false (readied s) with
    | (Returned _, s2, fx) =>
        match rpc s2 with
        | Some _ =>
            (Returned tt, set_activityTimer (Some (Interval 15000)) s2,
             readyPrefix loud s ++ fx ++ [SetTimeout 500; OnceTransportClose; SetInterval 15000])
        | None =>
            (Thrown (TypeError "Cannot read property 'transport' of null"), s2,
             readyPrefix loud s ++ fx ++ [SetTimeout 500])
        end
    | (Thrown e, s2, fx) => (Thrown e, s2, readyPrefix loud s ++ fx)
    | (Unmodelled, s2, fx) => (Unmodelled, s2, readyPrefix loud s ++ fx)
    end.
Proof.
  unfold onReady, readyPrefix, bind, emit, get, modify, ret, throw.
  destruct s as [r c rc n l a t i]. cbn -[setActivity readied].
  destruct (loud && negb (silent c)), i as [icon |], t as [timer |]; cbn -[setActivity readied];
    match goal with
    | |- context [setActivity host false (readied ?s0)] =>
        match goal with
        | |- context [setActivity host false ?s1] =>
            lazymatch s1 with
            | readied _ => fail
            | _ => change (readied s0) with s1
            end
        end
    end;
    match goal with
    | |- context [setActivity host false ?s1] =>
        destruct (setActivity host false s1) as [[[[] | e |] s2] fx]
    end; cbn; try reflexivity;
    destruct (rpc s2); cbn; rewrite <- ?List.app_assoc; reflexivity.
Qed.

Lemma setActivity_lifecycle (host : Host) (workspaceElapsedTime_ : bool) (s : State) :
  lifecycle_frame s (final (setActivity host workspaceElapsedTime_ s)).
Proof. apply setActivity_frame. Qed.

(** X7. However it ends, the listener of [ready] leaves no status bar
    item, the flag of reconnection off and the counter at 0, and changes
    neither the client nor the configuration; it announces the connection
    exactly when it was started by the reconnect command and the
    configuration is not silent. When it completes, one refresh timer of
    15 seconds is held and the first transmission is scheduled after half
    a second; it completes whenever the build of the presence does and a
    client exists. *)
Theorem ready_listener (host : Host) (loud : bool) (s : State) :
  statusBarIcon (final (onReady host loud s)) = None
  /\ reconnecting (final (onReady host loud s)) = false
  /\ reconnectCounter (final (onReady host loud s)) = 0
  /\ rpc (final (onReady host loud s)) = rpc s
  /\ config (final (onReady host loud s)) = config s
  /\ List.filter isInformation (effects (onReady host loud s))
     = (if loud && negb (silent (config s))
        then [ShowInformationMessage "Successfully reconnected to Discord RPC"] else [])
  /\ (outcome (onReady host loud s) = Returned tt ->
      activityTimer (final (onReady host loud s)) = Some (Interval 15000)
      /\ List.In (SetTimeout 500) (effects (onReady host loud s))
      /\ List.In OnceTransportClose (effects (onReady host loud s)))
  /\ (outcome (setActivity host false (readied s)) = Returned tt ->
      rpc s <> None ->
      outcome (onReady host loud s) = Returned tt).
Proof.
  rewrite onReady_run.
  pose proof (setActivity_lifecycle host false (readied s)) as (F1 & F2 & F3 & F4 & F5 & F6).
  pose proof (only_stats _ (setActivity_only_stats host false (readied s)))
    as (_ & _ & Hinfo & _).
  unfold final, effects, outcome in *.
  destruct (setActivity host false (readied s)) as [[o s2] fx]. cbn [fst snd] in *.
  cbn in F1, F2, F3, F4, F5, F6.
  assert (Hprefix : List.filter isInformation (readyPrefix loud s)
                    = (if loud && negb (silent (config s))
                       then [ShowInformationMessage "Successfully reconnected to Discord RPC"]
                       else [])).
  { unfold readyPrefix.
    destruct (loud && negb (silent (config s))), (statusBarIcon s), (activityTimer s);
      reflexivity. }
  destruct o as [[] | e |]; [ destruct (rpc s2) as [client |] eqn:Hrpc | | ];
    cbn [fst snd set_activityTimer statusBarIcon reconnecting reconnectCounter rpc config
         activityTimer];
    rewrite ?List.filter_app, ?Hinfo, ?Hprefix, ?List.app_nil_r;
    (split; [ assumption | ]); (split; [ assumption | ]); (split; [ assumption | ]);
    (split; [ congruence | ]); (split; [ assumption | ]); (split; [ reflexivity | ]);
    (split; [ intros H; try discriminate H | intros H1 H2; congruence ]).
  split; [ reflexivity | ].
  split; apply List.in_or_app; right; apply List.in_or_app; right; cbn; tauto.
Qed.

Lemma ready_listener_witness :
  outcome (setActivity Sample.editing false (readied Sample.connecting)) = Returned tt
  /\ rpc Sample.connecting <> None
  /\ outcome (onReady Sample.editing true Sample.connecting) = Returned tt.
Proof.
  split; [ reflexivity | split; [ discriminate | ] ].
  apply (proj2 (proj2 (proj2 (proj2 (proj2 (proj2 (proj2
           (ready_listener Sample.editing true Sample.connecting)))))))).
  - reflexivity.
  - discriminate.
Defined.

(** ** Status indicator *)

(** X8. [createButton] always returns and leaves a status bar item. It
    creates and shows one only when none exists and otherwise rewrites
    the one there, without a call. While reconnecting the item shows the
    attempts left, the threshold less the counter, with the singular
    exactly for 1, and carries no command; otherwise it offers the
    reconnect command. Nothing else of the state changes. *)
Theorem createButton_indicator (isReconnecting : bool) (s : State) :
  outcome (createButton isReconnecting s) = Returned tt
  /\ effects (createButton isReconnecting s)
     = match statusBarIcon s with
       | Some _ => []
       | None => [CreateStatusBarItem; StatusBarShow]
       end
  /\ final (createButton isReconnecting s)
     = set_statusBarIcon
         (Some {| text := if isReconnecting
                          then reconnectingText (reconnectThreshold (config s) - reconnectCounter s)
                          else "$(plug) Reconnect to Discord";
                  command := if isReconnecting then "" else "discord.reconnect";
                  shown := match statusBarIcon s with
                           | Some icon => shown icon
                           | None => true
                           end |}) s
  /\ reconnectingText 1 = "$(issue-reopened) Reconnecting: 1 attempt left"
  /\ (forall attempts, attempts <> 1 ->
        reconnectingText attempts
        = "$(issue-reopened) Reconnecting: " +:+ JsString.ofZ attempts +:+ " attempts left").
Proof.
  unfold createButton, bind, get, modify, emit, ret, final, outcome, effects.
  destruct s as [r c rc n l a t i].
  destruct i as [icon |], isReconnecting; cbn; repeat split;
    intros attempts H; unfold reconnectingText;
    destruct (attempts =? 1) eqn:E; try reflexivity; apply Z.eqb_eq in E; contradiction.
Qed.

Lemma createButton_indicator_witness :
  2 <> 1
  /\ reconnectingText 2 = "$(issue-reopened) Reconnecting: 2 attempts left".
Proof.
  split; [ discriminate | ].
  apply (proj2 (proj2 (proj2 (proj2 (createButton_indicator true Sample.ready)))) 2).
  discriminate.
Defined.

(** ** Teardown and the close of the transport *)

(** X9. [destroyRPC] with a client stops reconnecting and gives up the
    refresh timer, cleared if there is one, before it destroys the client;
    the client and [lastKnownFile] are forgotten only when the destruction
    completes, and kept when it rejects, in which case [destroyRPC] throws
    the error. The activity, the configuration, the counter and the status
    bar item are never touched. *)
Theorem destroyRPC_effect (destroyed : Promise) (s : State) (client : Client) :
  rpc s = Some client ->
  effects (destroyRPC destroyed s)
  = (match activityTimer s with Some _ => [ClearInterval] | None => [] end) ++ [RpcDestroy]
  /\ reconnecting (final (destroyRPC destroyed s)) = false
  /\ activityTimer (final (destroyRPC destroyed s)) = None
  /\ activity (final (destroyRPC destroyed s)) = activity s
  /\ config (final (destroyRPC destroyed s)) = config s
  /\ reconnectCounter (final (destroyRPC destroyed s)) = reconnectCounter s
  /\ statusBarIcon (final (destroyRPC destroyed s)) = statusBarIcon s
  /\ match destroyed with
     | Fulfilled =>
         outcome (destroyRPC destroyed s) = Returned tt
         /\ rpc (final (destroyRPC destroyed s)) = None
         /\ lastKnownFile (final (destroyRPC destroyed s)) = None
     | Rejected e =>
         outcome (destroyRPC destroyed s) = Thrown e
         /\ rpc (final (destroyRPC destroyed s)) = Some client
         /\ lastKnownFile (final (destroyRPC destroyed s)) = lastKnownFile s
     end.
Proof.
  intros Hrpc.
  unfold destroyRPC, bind, get, modify, emit, await, ret, final, outcome, effects.
  destruct s as [r c rc n l a t i]. cbn in Hrpc. subst r.
  destruct t as [timer |], destroyed as [| e]; cbn; repeat split.
Qed.

Lemma destroyRPC_effect_witness :
  rpc Sample.ready = Some Sample.ipc
  /\ effects (destroyRPC (Rejected Sample.refused) Sample.ready) = [ClearInterval; RpcDestroy]
  /\ activityTimer (final (destroyRPC (Rejected Sample.refused) Sample.ready)) = None.
Proof.
  split; [ reflexivity | ].
  destruct (destroyRPC_effect (Rejected Sample.refused) Sample.ready Sample.ipc eq_refl)
    as (H1 & _ & H3 & _).
  split; assumption.
Defined.

(** X10. The listener of the transport's [close] does nothing while the
    extension is disabled. While it is enabled and a client exists, it
    tears the session down and, if the teardown completes, begins a
    reconnect sequence: the flag of reconnection is on, one login is
    started on a new client, and the status bar shows the attempts left.
    If the teardown rejects, the listener throws and starts no login. *)
Theorem close_listener (destroyed : Promise) (s : State) (client : Client) :
  rpc s = Some client ->
  (enabled (config s) = false -> onClose destroyed s = (Returned tt, s, []))
  /\ (enabled (config s) = true ->
      match destroyed with
      | Fulfilled =>
          outcome (onClose destroyed s) = Returned tt
          /\ reconnecting (final (onClose destroyed s)) = true
          /\ rpc (final (onClose destroyed s)) = Some {| transport := "ipc" |}
          /\ activityTimer (final (onClose destroyed s)) = None
          /\ lastKnownFile (final (onClose destroyed s)) = None
          /\ logins (effects (onClose destroyed s)) = 1%nat
          /\ (exists icon,
                statusBarIcon (final (onClose destroyed s)) = Some icon
                /\ text icon
                   = reconnectingText (reconnectThreshold (config s) - reconnectCounter s)
                /\ command icon = "")
      | Rejected e =>
          outcome (onClose destroyed s) = Thrown e
          /\ reconnecting (final (onClose destroyed s)) = false
          /\ logins (effects (onClose destroyed s)) = 0%nat
      end).
Proof.
  intros Hrpc.
  unfold onClose, destroyRPC, initRPC, createButton, bind, get, modify, emit, await, ret,
    final, outcome, effects, logins.
  destruct s as [r c rc n l a t i]. cbn in *. subst r.
  destruct (enabled c); cbn; (split; [ intros H; try discriminate H; try reflexivity | ]);
    intros H; try discriminate H.
  destruct t as [timer |], destroyed as [| e], i as [icon |]; cbn; repeat split;
    eexists; repeat split.
Qed.

Lemma close_listener_witness :
  rpc Sample.ready = Some Sample.ipc
  /\ enabled (config Sample.ready) = true
  /\ logins (effects (onClose Fulfilled Sample.ready)) = 1%nat.
Proof.
  split; [ reflexivity | split; [ reflexivity | ] ].
  destruct (proj2 (close_listener Fulfilled Sample.ready Sample.ipc eq_refl) eq_refl)
    as (_ & _ & _ & _ & _ & H & _).
  exact H.
Defined.

(** X11. A login that fails outside a reconnect sequence is not retried
    and tears nothing down: no login is started, the client is not
    destroyed and stays, the counter stays. In silent mode nothing is
    shown, neither a notice nor a status bar item; otherwise the status
    bar offers the manual reconnect. *)
Theorem first_login_failure (error : JsError) (destroyed : Promise) (s : State) :
  reconnecting s = false ->
  outcome (onLoginError error destroyed s) = Returned tt
  /\ logins (effects (onLoginError error destroyed s)) = 0%nat
  /\ List.filter isDestroy (effects (onLoginError error destroyed s)) = []
  /\ rpc (final (onLoginError error destroyed s)) = rpc s
  /\ reconnectCounter (final (onLoginError error destroyed s)) = reconnectCounter s
  /\ (silent (config s) = true ->
      final (onLoginError error destroyed s) = s
      /\ effects (onLoginError error destroyed s)
         = [ConsoleError ("[Discord Presence]: " +:+ error_toString error)])
  /\ (silent (config s) = false ->
      exists icon,
        statusBarIcon (final (onLoginError error destroyed s)) = Some icon
        /\ text icon = reconnectText /\ command icon = "discord.reconnect").
Proof.
  intros Hrec.
  unfold onLoginError, createButton, bind, get, modify, emit, ret,
    final, outcome, effects, logins.
  destruct s as [r c rc n l a t i]. cbn in *. subst rc. cbn.
  destruct (silent c); cbn.
  - repeat split; intros; discriminate.
  - destruct (JsString.includes "ENOENT" (err_message error)), i as [icon |]; cbn;
      repeat split; intros; try discriminate; eexists; repeat split.
Qed.

Lemma first_login_failure_witness :
  reconnecting Sample.connecting = false
  /\ logins (effects (onLoginError Sample.enoent Fulfilled Sample.connecting)) = 0%nat
  /\ rpc (final (onLoginError Sample.enoent Fulfilled Sample.connecting)) = Some Sample.ipc.
Proof.
  split; [ reflexivity | ].
  destruct (first_login_failure Sample.enoent Fulfilled Sample.connecting eq_refl)
    as (_ & H2 & _ & H4 & _).
  split; assumption.
Defined.

(** ** The refresh timer *)

(** X12. A tick of the refresh timer installs the configuration it reads
    and touches nothing else of the connection. When a client exists and
    the build of the presence completes, the tick transmits the activity
    just built, once, and returns even if the transmission is rejected,
    the error being logged; when the build does not complete, nothing is
    transmitted. *)
Theorem timer_tick (host : Host) (fresh : Config) (sent : Promise) (s : State) :
  config (final (onActivityTimer host fresh sent s)) = fresh
  /\ rpc (final (onActivityTimer host fresh sent s)) = rpc s
  /\ reconnecting (final (onActivityTimer host fresh sent s)) = reconnecting s
  /\ reconnectCounter (final (onActivityTimer host fresh sent s)) = reconnectCounter s
  /\ activityTimer (final (onActivityTimer host fresh sent s)) = activityTimer s
  /\ statusBarIcon (final (onActivityTimer host fresh sent s)) = statusBarIcon s
  /\ (rpc s <> None ->
      outcome (setActivity host (workspaceElapsedTime fresh) (set_config fresh s)) = Returned tt ->
      outcome (onActivityTimer host fresh sent s) = Returned tt
      /\ List.filter isSend (effects (onActivityTimer host fresh sent s))
         = [RpcSetActivity (activity (final (onActivityTimer host fresh sent s)))]
      /\ (forall e, sent = Rejected e ->
            List.In (ConsoleError ("[Discord Presence]: " +:+ error_toString e))
              (effects (onActivityTimer host fresh sent s))))
  /\ (outcome (setActivity host (workspaceElapsedTime fresh) (set_config fresh s)) <> Returned tt ->
      List.filter isSend (effects (onActivityTimer host fresh sent s)) = []).
Proof.
  unfold onActivityTimer. rewrite bind_modify.
  pose proof (setActivity_lifecycle host (workspaceElapsedTime fresh) (set_config fresh s))
    as (F1 & F2 & F3 & F4 & F5 & F6).
  pose proof (only_stats _ (setActivity_only_stats host (workspaceElapsedTime fresh)
                              (set_config fresh s))) as (_ & _ & _ & Hsend & _).
  unfold bind, sendActivity, get, emit, ret, throw, final, outcome, effects in *.
  destruct (setActivity host (workspaceElapsedTime fresh) (set_config fresh s))
    as [[o s1] fx]. cbn [fst snd] in *. cbn in F1, F2, F3, F4, F5, F6.
  destruct o as [[] | e |]; cbn.
  - destruct (rpc s1) as [client |] eqn:Hrpc; cbn.
    + destruct sent as [| err]; cbn;
        rewrite ?List.filter_app, ?Hsend; cbn;
        repeat split; try assumption; try congruence.
      intros e He. inversion He. subst e.
      apply List.in_or_app. right. cbn. tauto.
    + rewrite List.app_nil_r.
      repeat split; try assumption; try congruence.
  - rewrite Hsend. repeat split; try assumption; try congruence.
  - rewrite Hsend. repeat split; try assumption; try congruence.
Qed.

Lemma timer_tick_witness :
  rpc Sample.ready <> None
  /\ outcome (onActivityTimer Scenario.onNotes Sample.settings (Rejected Sample.refused)
                Sample.ready) = Returned tt.
Proof.
  assert (Hclient : rpc Sample.ready <> None) by discriminate.
  assert (Hbuilt : outcome (setActivity Scenario.onNotes (workspaceElapsedTime Sample.settings)
                              (set_config Sample.settings Sample.ready)) = Returned tt)
    by (vm_compute; reflexivity).
  split; [ exact Hclient | ].
  exact (proj1 (proj1 (proj2 (proj2 (proj2 (proj2 (proj2 (proj2
           (timer_tick Scenario.onNotes Sample.settings (Rejected Sample.refused)
              Sample.ready)))))))
           Hclient Hbuilt)).
Defined.

(** ** One refresh timer at most *)

Ltac crush_handler :=
  unfold onLoginError, reconnectCommand, onClose, onActivityTimeout, sendActivity, deactivate,
    try_catch, destroyRPC, initRPC, createButton, bind, get, modify, emit, await, ret, throw,
    final, outcome, effects, timersHeld, timersChange;
  cbn.

Lemma destroyRPC_timers (destroyed : Promise) (s : State) :
  timersHeld (final (destroyRPC destroyed s))
  = timersHeld s + timersChange (effects (destroyRPC destroyed s)).
Proof.
  crush_handler. destruct s as [r c rc n l a t i].
  destruct r as [client |], t as [timer |], destroyed as [| e]; reflexivity.
Qed.

Lemma onLoginError_timers (error : JsError) (destroyed : Promise) (s : State) :
  timersHeld (final (onLoginError error destroyed s))
  = timersHeld s + timersChange (effects (onLoginError error destroyed s)).
Proof.
  crush_handler. destruct s as [r c rc n l a t i]. cbn.
  destruct rc; cbn; [ destruct (reconnectThreshold c <=? n); cbn | ];
    destruct i as [icon |]; cbn;
    try (destruct r as [client |], t as [timer |], destroyed as [| e]; cbn);
    try (destruct (silent c); cbn);
    try (destruct (JsString.includes "ENOENT" (err_message error)); cbn);
    reflexivity.
Qed.

Lemma reconnectCommand_timers (destroyed : Promise) (s : State) :
  timersHeld (final (reconnectCommand destroyed s))
  = timersHeld s + timersChange (effects (reconnectCommand destroyed s)).
Proof.
  crush_handler. destruct s as [r c rc n l a t i]. cbn.
  destruct r as [client |], t as [timer |], destroyed as [| e], (silent c), i as [icon |];
    reflexivity.
Qed.

Lemma onClose_timers (destroyed : Promise) (s : State) :
  timersHeld (final (onClose destroyed s))
  = timersHeld s + timersChange (effects (onClose destroyed s)).
Proof.
  crush_handler. destruct s as [r c rc n l a t i]. cbn.
  destruct (enabled c), r as [client |], t as [timer |], destroyed as [| e], i as [icon |];
    reflexivity.
Qed.

Lemma sendActivity_timers (sent : Promise) (s : State) :
  timersHeld (final (sendActivity sent s))
  = timersHeld s + timersChange (effects (sendActivity sent s)).
Proof.
  crush_handler. destruct (rpc s), sent; cbn; lia.
Qed.

Lemma setActivity_timers (host : Host) (workspaceElapsedTime_ : bool) (s : State) :
  timersHeld (final (setActivity host workspaceElapsedTime_ s)) = timersHeld s
  /\ timersChange (effects (setActivity host workspaceElapsedTime_ s)) = 0.
Proof.
  pose proof (setActivity_lifecycle host workspaceElapsedTime_ s) as (_ & _ & _ & _ & F & _).
  pose proof (only_stats _ (setActivity_only_stats host workspaceElapsedTime_ s)) as (H & _).
  unfold timersHeld. rewrite F. split; [ reflexivity | exact H ].
Qed.

Lemma readyPrefix_timers (loud : bool) (s : State) :
  timersChange (readyPrefix loud s) = - timersHeld s.
Proof.
  unfold readyPrefix, timersHeld.
  destruct (loud && negb (silent (config s))), (statusBarIcon s), (activityTimer s);
    reflexivity.
Qed.

Lemma onReady_timers (host : Host) (loud : bool) (s : State) :
  timersHeld (final (onReady host loud s))
  = timersHeld s + timersChange (effects (onReady host loud s)).
Proof.
  rewrite onReady_run.
  destruct (setActivity_timers host false (readied s)) as [H1 H2].
  pose proof (readyPrefix_timers loud s) as Hp.
  unfold final, effects in *.
  destruct (setActivity host false (readied s)) as [[o s2] fx]. cbn [fst snd] in *.
  change (timersHeld (readied s)) with 0 in H1.
  destruct o as [[] | e |]; [ destruct (rpc s2) | | ]; cbn [fst snd];
    rewrite ?timersChange_app, ?H2, ?Hp; cbn; lia.
Qed.

Lemma onActivityTimer_timers (host : Host) (fresh : Config) (sent : Promise) (s : State) :
  timersHeld (final (onActivityTimer host fresh sent s))
  = timersHeld s + timersChange (effects (onActivityTimer host fresh sent s)).
Proof.
  unfold onActivityTimer. rewrite bind_modify.
  destruct (setActivity_timers host (workspaceElapsedTime fresh) (set_config fresh s))
    as [H1 H2].
  change (timersHeld (set_config fresh s)) with (timersHeld s) in H1.
  unfold bind, final, effects in *.
  destruct (setActivity host (workspaceElapsedTime fresh) (set_config fresh s))
    as [[o s1] fx]. cbn [fst snd] in *.
  destruct o as [[] | e |]; cbn [fst snd]; try lia.
  pose proof (sendActivity_timers sent s1) as H3. unfold final, effects in H3.
  destruct (sendActivity sent s1) as [[o2 s2] fx2]. cbn [fst snd] in *.
  rewrite timersChange_app. lia.
Qed.

Lemma handle_timers (host : Host) (ev : Event) (s : State) :
  timersHeld (final (handle host ev s))
  = timersHeld s + timersChange (effects (handle host ev s)).
Proof.
  destruct ev; cbn [handle].
  - apply onLoginError_timers.
  - apply onReady_timers.
  - apply onClose_timers.
  - apply sendActivity_timers.
  - apply onActivityTimer_timers.
  - apply reconnectCommand_timers.
Qed.

Lemma commandTimersChange_core (fx : list Effect) :
  commandTimersChange (List.map Core fx) = timersChange fx.
Proof.
  unfold commandTimersChange, timersChange.
  induction fx as [| e fx IH]; cbn; [ reflexivity | ]. rewrite IH. reflexivity.
Qed.

Lemma commandTimersChange_app (fx1 fx2 : list CommandEffect) :
  commandTimersChange (fx1 ++ fx2) = commandTimersChange fx1 + commandTimersChange fx2.
Proof.
  unfold commandTimersChange. induction fx1 as [| e fx1 IH]; cbn; [ reflexivity | ].
  rewrite IH. destruct e; lia.
Qed.

Ltac crush_command :=
  unfold activate, enableCommand, disableCommand, Command.bind, Command.core, Command.emit,
    Command.ret, destroyRPC, initRPC, bind, get, modify, emit, await, ret, throw,
    timersHeld, commandTimersChange, timersChange;
  cbn.

Lemma perform_timers (a : Action) (s : State) :
  timersHeld (snd (fst (perform a s)))
  = timersHeld s + commandTimersChange (snd (perform a s)).
Proof.
  destruct a as [host ev | fresh | destroyed updated fresh | updated fresh destroyed | destroyed];
    cbn [perform].
  - pose proof (handle_timers host ev s) as H. unfold Command.core, final, effects in *.
    destruct (handle host ev s) as [[o s1] fx]. cbn [fst snd] in *.
    rewrite commandTimersChange_core. exact H.
  - crush_command. destruct (enabled fresh); cbn; destruct (activityTimer s); reflexivity.
  - crush_command. destruct s as [r c rc n l a t i]. cbn.
    destruct r as [client |], t as [timer |], destroyed as [| e], updated as [| e'];
      reflexivity.
  - crush_command. destruct s as [r c rc n l a t i]. cbn.
    destruct r as [client |], t as [timer |], destroyed as [| e], updated as [| e'];
      reflexivity.
  - pose proof (destroyRPC_timers destroyed s) as H.
    unfold deactivate, Command.core, final, effects in *.
    destruct (destroyRPC destroyed s) as [[o s1] fx]. cbn [fst snd] in *.
    rewrite commandTimersChange_core. exact H.
Qed.

Lemma session_timers (actions : list Action) :
  forall s : State,
    timersHeld (fst (session actions s))
    = timersHeld s + commandTimersChange (snd (session actions s)).
Proof.
  induction actions as [| a rest IH]; intros s; cbn [session].
  - cbn. lia.
  - pose proof (perform_timers a s) as H.
    destruct (perform a s) as [[o s1] fx1]. cbn [fst snd] in H.
    specialize (IH s1).
    destruct (session rest s1) as [s2 fx2]. cbn [fst snd] in *.
    rewrite commandTimersChange_app. lia.
Qed.

(** X13. At most one refresh timer is alive. Whatever happens to the
    extension from the moment it is loaded (activation, commands, events
    of the client, ticks), the intervals set so far less the intervals
    cleared so far are 1 when the module holds a timer and 0 when it
    holds none: each interval is cleared before the next is set, and none
    is lost. *)
Theorem one_refresh_timer (actions : list Action) (unread : Config) :
  commandTimersChange (snd (session actions (loaded unread)))
  = timersHeld (fst (session actions (loaded unread)))
  /\ 0 <= commandTimersChange (snd (session actions (loaded unread))) <= 1.
Proof.
  pose proof (session_timers actions (loaded unread)) as H.
  change (timersHeld (loaded unread)) with 0 in H.
  assert (0 <= timersHeld (fst (session actions (loaded unread))) <= 1)
    by (unfold timersHeld;
        destruct (activityTimer (fst (session actions (loaded unread)))); lia).
  lia.
Qed.

(** ** Coherent states *)

Ltac solve_coherent :=
  unfold coherent in *; cbn in *;
  repeat match goal with
         | H : _ /\ _ |- _ => destruct H
         | |- _ /\ _ => split
         | |- _ -> _ => intro
         | |- forall _, _ => intro
         | H : Some _ = Some _ |- _ => inversion H; subst; clear H; cbn in *
         | H : Some _ = None |- _ => discriminate H
         | H : None = Some _ |- _ => discriminate H
         | H : None = None -> _ |- _ => specialize (H eq_refl)
         | H : ?x = None -> _, H' : ?x = None |- _ => specialize (H H')
         end;
  try solve [ reflexivity | assumption | lia | congruence | eauto ].

Lemma loaded_coherent (unread : Config) : coherent (loaded unread).
Proof. solve_coherent. Qed.

Lemma setActivity_coherent (host : Host) (workspaceElapsedTime_ : bool) (s : State) :
  coherent s -> coherent (final (setActivity host workspaceElapsedTime_ s)).
Proof.
  intros Hs.
  pose proof (setActivity_lifecycle host workspaceElapsedTime_ s) as (F1 & _ & _ & F4 & _ & F6).
  pose proof (setActivity_unfold host workspaceElapsedTime_ s) as E.
  destruct (rpc s) as [client |] eqn:Hrpc.
  - destruct Hs as (_ & H2 & H3). unfold coherent.
    rewrite F1, F4, F6. repeat split; try assumption; intros; discriminate.
  - rewrite E. exact Hs.
Qed.

Lemma destroyRPC_coherent (destroyed : Promise) (s : State) :
  coherent s -> coherent (final (destroyRPC destroyed s)).
Proof.
  crush_handler. destruct s as [r c rc n l a t i].
  destruct r as [client |], t as [timer |], destroyed as [| e]; solve_coherent.
Qed.

Lemma onLoginError_coherent (error : JsError) (destroyed : Promise) (s : State) :
  coherent s -> coherent (final (onLoginError error destroyed s)).
Proof.
  crush_handler. destruct s as [r c rc n l a t i]. cbn.
  destruct rc; cbn; [ destruct (reconnectThreshold c <=? n); cbn | ];
    destruct i as [icon |]; cbn;
    try (destruct r as [client |], t as [timer |], destroyed as [| e]; cbn);
    try (destruct (silent c); cbn);
    try (destruct (JsString.includes "ENOENT" (err_message error)); cbn);
    solve_coherent.
Qed.

Lemma reconnectCommand_coherent (destroyed : Promise) (s : State) :
  coherent s -> coherent (final (reconnectCommand destroyed s)).
Proof.
  crush_handler. destruct s as [r c rc n l a t i]. cbn.
  destruct r as [client |], t as [timer |], destroyed as [| e], (silent c), i as [icon |];
    solve_coherent.
Qed.

Lemma onClose_coherent (destroyed : Promise) (s : State) :
  coherent s -> coherent (final (onClose destroyed s)).
Proof.
  crush_handler. destruct s as [r c rc n l a t i]. cbn.
  destruct (enabled c), r as [client |], t as [timer |], destroyed as [| e], i as [icon |];
    solve_coherent.
Qed.

Lemma sendActivity_coherent (sent : Promise) (s : State) :
  coherent s -> coherent (final (sendActivity sent s)).
Proof.
  crush_handler. destruct (rpc s), sent; cbn; intros H; exact H.
Qed.

Lemma readied_coherent (s : State) : coherent s -> coherent (readied s).
Proof.
  destruct s as [r c rc n l a t i]. unfold readied. destruct r as [client |]; solve_coherent.
Qed.

Lemma onReady_coherent (host : Host) (loud : bool) (s : State) :
  coherent s -> coherent (final (onReady host loud s)).
Proof.
  intros Hs. rewrite onReady_run.
  pose proof (setActivity_coherent host false (readied s) (readied_coherent s Hs)) as H.
  unfold final in *.
  destruct (setActivity host false (readied s)) as [[o s2] fx]. cbn [fst snd] in *.
  destruct o as [[] | e |]; [ destruct (rpc s2) as [client |] eqn:Hrpc | | ];
    cbn [fst snd]; try exact H.
  destruct s2 as [r c rc n l a t i]. solve_coherent.
Qed.

Lemma onActivityTimer_coherent (host : Host) (fresh : Config) (sent : Promise) (s : State) :
  coherent s -> coherent (final (onActivityTimer host fresh sent s)).
Proof.
  intros Hs. unfold onActivityTimer. rewrite bind_modify.
  assert (Hc : coherent (set_config fresh s)) by (destruct s as [[client |] ? ? ? ? ? ? ?]; solve_coherent).
  pose proof (setActivity_coherent host (workspaceElapsedTime fresh) _ Hc) as H.
  unfold bind, final in *.
  destruct (setActivity host (workspaceElapsedTime fresh) (set_config fresh s))
    as [[o s1] fx]. cbn [fst snd] in *.
  destruct o as [[] | e |]; cbn [fst snd]; try exact H.
  pose proof (sendActivity_coherent sent s1 H) as H'. unfold final in H'.
  destruct (sendActivity sent s1) as [[o2 s2] fx2]. exact H'.
Qed.

Lemma handle_coherent (host : Host) (ev : Event) (s : State) :
  coherent s -> coherent (final (handle host ev s)).
Proof.
  destruct ev; cbn [handle].
  - apply onLoginError_coherent.
  - apply onReady_coherent.
  - apply onClose_coherent.
  - apply sendActivity_coherent.
  - apply onActivityTimer_coherent.
  - apply reconnectCommand_coherent.
Qed.

Lemma perform_coherent (a : Action) (s : State) :
  coherent s -> coherent (snd (fst (perform a s))).
Proof.
  destruct a as [host ev | fresh | destroyed updated fresh | updated fresh destroyed | destroyed];
    cbn [perform].
  - intros Hs. pose proof (handle_coherent host ev s Hs) as H.
    unfold Command.core, final in *.
    destruct (handle host ev s) as [[o s1] fx]. exact H.
  - crush_command. destruct s as [r c rc n l a t i].
    destruct (enabled fresh); solve_coherent.
  - crush_command. destruct s as [r c rc n l a t i]. cbn.
    destruct r as [client |], t as [timer |], destroyed as [| e], updated as [| e'];
      solve_coherent.
  - crush_command. destruct s as [r c rc n l a t i]. cbn.
    destruct r as [client |], t as [timer |], destroyed as [| e], updated as [| e'];
      solve_coherent.
  - intros Hs. pose proof (destroyRPC_coherent destroyed s Hs) as H.
    unfold deactivate, Command.core, final in *.
    destruct (destroyRPC destroyed s) as [[o s1] fx]. exact H.
Qed.

(** X14. Run on its own, with no other handler starting while it is
    suspended at an [await], every handler keeps the module coherent:
    the listeners of the client, the tick of the timer, the three
    commands, activation and deactivation, however their awaited
    promises settle and whether they return or throw. Coherent means
    that without a client there is no refresh timer, no remembered file
    and no reconnection under way, that a status bar item that exists
    has been shown, and that the counter of reconnections is not
    negative. The module is coherent when it is loaded. *)
Theorem handlers_keep_coherence (a : Action) (s : State) (unread : Config) :
  coherent (loaded unread)
  /\ (coherent s -> coherent (snd (fst (perform a s)))).
Proof.
  split; [ apply loaded_coherent | apply perform_coherent ].
Qed.

Lemma handlers_keep_coherence_witness :
  rpc Sample.ready = Some Sample.ipc
  /\ coherent Sample.ready
  /\ coherent (snd (fst (perform (Deliver Sample.editing (TransportClosed Fulfilled))
                           Sample.ready)))
  /\ coherent (snd (fst (perform (Disable Fulfilled Scenario.disabled (Rejected Sample.refused))
                           Sample.ready))).
Proof.
  assert (Hready : coherent Sample.ready).
  { unfold coherent. split; [ intros H; discriminate H | split ].
    - intros icon H. discriminate H.
    - apply Z.leb_le. reflexivity. }
  split; [ reflexivity | split; [ exact Hready | split ] ].
  - exact (proj2 (handlers_keep_coherence
                    (Deliver Sample.editing (TransportClosed Fulfilled)) Sample.ready
                    Sample.settings) Hready).
  - exact (proj2 (handlers_keep_coherence
                    (Disable Fulfilled Scenario.disabled (Rejected Sample.refused)) Sample.ready
                    Sample.settings) Hready).
Defined.

(** ** The commands that enable and disable *)

(** X15. The disable command without a client only warns: it writes no
    configuration and changes nothing. With a client it writes the
    configuration first and, once that is done, installs the
    configuration read back and tears the session down; no path of it
    starts a login. When both promises are fulfilled nothing of the
    session is left, and if the configuration read back says disabled,
    the close of the transport that follows starts no reconnection. When
    the write is rejected the command throws with the session
    untouched. *)
Theorem disable_command (updated : Promise) (fresh : Config) (destroyed : Promise) (s : State) :
  commandLogins (snd (disableCommand updated fresh destroyed s)) = 0%nat
  /\ (rpc s = None ->
      disableCommand updated fresh destroyed s
      = (Returned tt, s,
         [ShowWarningMessage "Discord Rich Presence is already disabled in this workspace."]))
  /\ (rpc s <> None -> updated = Fulfilled -> destroyed = Fulfilled ->
      disableCommand updated fresh destroyed s
      = (Returned tt,
         set_lastKnownFile None
           (set_rpc None (set_activityTimer None (set_reconnecting false (set_config fresh s)))),
         ConfigUpdate "enabled" false
         :: List.map Core
              (teardownCalls s
               ++ [ShowInformationMessage "Disabled Discord Rich Presence for this workspace."]))
      /\ (enabled fresh = false ->
          forall closing,
            onClose closing (snd (fst (disableCommand updated fresh destroyed s)))
            = (Returned tt, snd (fst (disableCommand updated fresh destroyed s)), [])))
  /\ (forall e, rpc s <> None -> updated = Rejected e ->
        disableCommand updated fresh destroyed s
        = (Thrown e, s, [ConfigUpdate "enabled" false])).
Proof.
  unfold disableCommand, teardownCalls, commandLogins, onClose.
  crush_command. destruct s as [r c rc n l a t i]. cbn.
  destruct r as [client |]; cbn.
  - destruct t as [timer |], destroyed as [| e], updated as [| e']; cbn;
      repeat split; intros; try congruence; try discriminate.
    all: match goal with Hoff : enabled _ = false |- _ => rewrite Hoff; reflexivity end.
  - repeat split; intros; congruence.
Qed.

Lemma disable_command_witness :
  rpc Sample.ready <> None
  /\ enabled Scenario.disabled = false
  /\ onClose Fulfilled
       (snd (fst (disableCommand Fulfilled Scenario.disabled Fulfilled Sample.ready)))
     = (Returned tt,
        snd (fst (disableCommand Fulfilled Scenario.disabled Fulfilled Sample.ready)), []).
Proof.
  split; [ discriminate | split; [ reflexivity | ] ].
  apply (proj2 (proj1 (proj2 (proj2 (disable_command Fulfilled Scenario.disabled Fulfilled
                                        Sample.ready)))
                  ltac:(discriminate) eq_refl eq_refl) eq_refl).
Defined.



(** ** Activation *)

(** X17. Activation installs the configuration it reads and registers
    the three commands whatever the configuration says. In a workspace
    where the extension is disabled it creates no client and starts no
    login; where it is enabled it starts exactly one login, with the
    client id of the configuration just read. *)
Theorem activate_start (fresh : Config) (s : State) :
  fst (fst (activate fresh s)) = Returned tt
  /\ config (snd (fst (activate fresh s))) = fresh
  /\ registered (snd (activate fresh s)) = ["discord.enable"; "discord.disable"; "discord.reconnect"]
  /\ List.last (snd (activate fresh s)) (PushSubscriptions 0) = PushSubscriptions 3
  /\ (enabled fresh = false ->
      snd (fst (activate fresh s)) = set_config fresh s
      /\ commandLogins (snd (activate fresh s)) = 0%nat)
  /\ (enabled fresh = true ->
      rpc (snd (fst (activate fresh s))) = Some {| transport := "ipc" |}
      /\ commandLogins (snd (activate fresh s)) = 1%nat
      /\ List.In (Core (Login (clientID fresh))) (snd (activate fresh s))).
Proof.
  unfold registered, commandLogins. crush_command.
  destruct (enabled fresh); cbn; repeat split; intros; try discriminate; auto 10.
Qed.

Lemma activate_start_witness :
  enabled Scenario.disabled = false
  /\ snd (fst (activate Scenario.disabled (loaded Sample.settings)))
     = set_config Scenario.disabled (loaded Sample.settings)
  /\ commandLogins (snd (activate Scenario.disabled (loaded Sample.settings))) = 0%nat.
Proof.
  split; [ reflexivity | ].
  apply (proj1 (proj2 (proj2 (proj2 (proj2
           (activate_start Scenario.disabled (loaded Sample.settings))))))).
  reflexivity.
Defined.

(** ** Keys written as regular expressions *)

Lemma cut_last_sound (c : ascii) (s before after : string) :
  RegexKey.cut_last c s = Some (before, after) ->
  s = before +:+ String c after /\ RegexKey.cut_last c after = None.
Proof.
  revert before. induction s as [| a rest IH]; intros before; cbn; [ discriminate | ].
  destruct (RegexKey.cut_last c rest) as [[b' a'] |] eqn:E.
  - intros H. injection H as <- <-. destruct (IH b' eq_refl) as [-> Hno].
    split; [ reflexivity | exact Hno ].
  - destruct (Ascii.eqb a c) eqn:Ea; [ | discriminate ].
    apply Ascii.eqb_eq in Ea. subst a. intros H. injection H as <- <-.
    split; [ reflexivity | exact E ].
Qed.

Lemma cut_last_complete (c : ascii) (before after : string) :
  RegexKey.cut_last c after = None ->
  RegexKey.cut_last c (before +:+ String c after) = Some (before, after).
Proof.
  intros Hno. induction before as [| a rest IH].
  - change (EmptyString +:+ String c after) with (String c after). cbn.
    rewrite Hno, Ascii.eqb_refl. reflexivity.
  - change (String a rest +:+ String c after) with (String a (rest +:+ String c after)).
    cbn [RegexKey.cut_last]. rewrite IH. reflexivity.
Qed.

Lemma all_flags_no_slash (flags : string) :
  RegexKey.all_flags flags = true -> RegexKey.cut_last "/" flags = None.
Proof.
  induction flags as [| a rest IH]; cbn; [ reflexivity | ].
  intros H. apply andb_true_iff in H as [Ha Hrest]. rewrite (IH Hrest).
  destruct (Ascii.eqb a "/") eqn:E; [ | reflexivity ].
  apply Ascii.eqb_eq in E. subst a. discriminate.
Qed.

(** X18. A key of the table of extensions is read as a regular
    expression exactly when it is a slash, a source without a line
    terminator, a slash and one or more flags among m, g, i and y; the
    source and the flags handed to [RegExp] are those two parts, the
    source going up to the last slash of the key. *)
Theorem regex_key_shape (key source flags : string) :
  RegexKey.parse key = Some (source, flags)
  <-> key = "/" +:+ source +:+ "/" +:+ flags
      /\ flags <> EmptyString
      /\ RegexKey.all_flags flags = true
      /\ RegexKey.has_line_terminator source = false.
Proof.
  unfold RegexKey.parse. split.
  - destruct key as [| a rest]; [ discriminate | ].
    destruct (Ascii.eqb a "/") eqn:Ea; [ | discriminate ].
    apply Ascii.eqb_eq in Ea. subst a.
    destruct (RegexKey.cut_last "/" rest) as [[src fl] |] eqn:E; [ | discriminate ].
    destruct (negb (String.eqb fl EmptyString)) eqn:Hne; [ | discriminate ].
    destruct (RegexKey.all_flags fl) eqn:Hfl; [ | discriminate ].
    destruct (RegexKey.has_line_terminator src) eqn:Hlt; [ discriminate | ].
    cbn. intros H. injection H as <- <-.
    apply cut_last_sound in E as [-> _].
    repeat split; try reflexivity; try assumption.
    intros ->. discriminate.
  - intros (-> & Hne & Hfl & Hlt).
    change ("/" +:+ source +:+ "/" +:+ flags) with (String "/" (source +:+ String "/" flags)).
    cbv beta iota. rewrite Ascii.eqb_refl.
    rewrite (cut_last_complete "/" source flags (all_flags_no_slash flags Hfl)).
    rewrite Hfl, Hlt.
    destruct flags; [ congruence | reflexivity ].
Qed.

(** ** Templates without a placeholder *)

Lemma includes_brace (p s : string) :
  JsString.includes "{" s = false -> JsString.includes (String "{" p) s = false.
Proof.
  induction s as [| c rest IH]; [ reflexivity | ].
  cbn [JsString.includes]. intros H. apply orb_false_iff in H as [Hc Hrest].
  rewrite (IH Hrest), orb_false_r.
  cbn [String.prefix] in *.
  destruct (ascii_dec "{" c) as [e | ne]; [ destruct rest; discriminate | reflexivity ].
Qed.

Lemma cut_absent (pat s : string) :
  JsString.includes pat s = false -> JsString.cut pat s = None.
Proof.
  induction s as [| c rest IH]; cbn [JsString.includes JsString.cut].
  - intros ->. reflexivity.
  - intros H. apply orb_false_iff in H as [-> Hrest]. rewrite (IH Hrest). reflexivity.
Qed.

Lemma replace_plain (p repl s : string) :
  JsString.includes "{" s = false -> JsString.replace (String "{" p) repl s = s.
Proof.
  intros H. unfold JsString.replace.
  rewrite (cut_absent _ _ (includes_brace p s H)). reflexivity.
Qed.

Lemma getFileDetails_plain (host : Host) (rawString : string) (s : State) :
  JsString.includes "{" rawString = false ->
  getFileDetails host rawString s = (Returned FileDetail.empty, s, []).
Proof.
  intros H. unfold getFileDetails.
  destruct (String.eqb rawString EmptyString); [ reflexivity | ].
  rewrite !(includes_brace _ rawString H). reflexivity.
Qed.

(** X19. While an editor is focused, a template without an opening
    brace is shown as it is configured, whatever the file, the folder and
    the workspace are called, and without a call of [statSync]; the
    label of the language is computed all the same, so that a language
    whose image is not a string makes the call throw even though the
    template does not mention it. *)
Theorem plain_template_verbatim (host : Host) (debugging editing idling : TemplateSlot)
  (key : Value) (s : State) (ed : TextEditor) :
  activeTextEditor host = Some ed ->
  JsString.includes "{" (chosenTemplate host debugging editing s) = false ->
  (forall upper, fst (fst (langLabelUpper host key s)) = Returned upper ->
     generateDetails host debugging editing idling key s
     = (Returned (chosenTemplate host debugging editing s), s, []))
  /\ (forall e, fst (fst (langLabelUpper host key s)) = Thrown e ->
        generateDetails host debugging editing idling key s = (Thrown e, s, [])).
Proof.
  unfold chosenTemplate. intros Hed Hplain.
  destruct (langLabelUpper_run host key s) as [o Ho].
  unfold generateDetails, bind at 1, get. rewrite Hed.
  unfold bind. rewrite (getFileDetails_plain host _ s Hplain), Ho. cbn [fst snd].
  split.
  - intros upper ->. unfold ret. cbn [app FileDetail.totalLines FileDetail.size
      FileDetail.currentLine FileDetail.currentColumn FileDetail.empty replace_fact].
    rewrite (replace_plain "null}" _ _ Hplain).
    rewrite (replace_plain "filename}" _ _ Hplain).
    rewrite (replace_plain "dirname}" _ _ Hplain).
    rewrite (replace_plain "fulldirname}" _ _ Hplain).
    rewrite (replace_plain "workspace}" _ _ Hplain).
    rewrite (replace_plain "lang}" _ _ Hplain).
    rewrite (replace_plain "LANG}" _ _ Hplain).
    reflexivity.
  - intros e ->. reflexivity.
Qed.

Lemma plain_template_verbatim_witness :
  generateDetails Scenario.onNotes detailsDebugging detailsEditing detailsIdle
    (VStr "typescript") (set_config fixedLines Sample.ready)
  = (Returned "Hard at work", set_config fixedLines Sample.ready, []).
Proof.
  apply (proj1 (plain_template_verbatim Scenario.onNotes detailsDebugging detailsEditing
                  detailsIdle (VStr "typescript") (set_config fixedLines Sample.ready)
                  Scenario.notes eq_refl ltac:(vm_compute; reflexivity)) "TYPESCRIPT").
  vm_compute. reflexivity.
Defined.

(** ** The size of a small file *)

(** X20. For a focused file of at most 1000 bytes, a template that asks
    for the size gets the number of bytes as [statSync] reports it,
    every digit and no decimals, followed by the unit of bytes; the file
    is looked up once. *)
Theorem small_file_size_in_bytes (host : Host) (rawString : string) (s : State)
  (ed : TextEditor) (bytes : N) :
  activeTextEditor host = Some ed ->
  JsString.includes "{filesize}" rawString = true ->
  statSync host (fileName ed) = Ok bytes ->
  (bytes <= 1000)%N ->
  exists facts,
    getFileDetails host rawString s = (Returned facts, s, [StatSync (fileName ed)])
    /\ FileDetail.size facts = Some (JsString.ofZ (Z.of_N bytes) +:+ " bytes").
Proof.
  intros Hed Hasks Hstat Hsmall.
  unfold getFileDetails, document.
  destruct (String.eqb rawString EmptyString) eqn:E.
  { apply String.eqb_eq in E. subst rawString. discriminate. }
  rewrite Hasks, Hed.
  destruct (JsString.includes "{totallines}" rawString);
  destruct (JsString.includes "{currentline}" rawString);
  destruct (JsString.includes "{currentcolumn}" rawString);
  cbn; rewrite Hstat; cbn; rewrite (formatSize_bytes bytes Hsmall); cbn;
  eexists; (split; [ reflexivity | reflexivity ]).
Qed.

Lemma small_file_size_in_bytes_witness :
  exists facts,
    getFileDetails smallFile "{filename} ({filesize})" Sample.ready
    = (Returned facts, Sample.ready, [StatSync (fileName Sample.mainTs)])
    /\ FileDetail.size facts = Some (JsString.ofZ 800 +:+ " bytes").
Proof.
  apply (small_file_size_in_bytes smallFile "{filename} ({filesize})" Sample.ready
           Sample.mainTs 800);
    [ reflexivity | vm_compute; reflexivity | reflexivity | lia ].
Defined.

(** ** The partial update on the compiled module *)

(** X21. Where [this] of a plain call is undefined, as in the module the
    compiler emits, every call of [setActivity] with a client on the file
    of the last build throws a [TypeError] at its read of
    [this.largeImageKey], before anything is rendered or assigned: the
    state is as it was and no call is made. A tick of the timer on an
    unchanged file therefore installs the configuration it read and
    throws, and transmits nothing. *)
Theorem same_file_call_throws
  (host : Host) (workspaceElapsedTime_ : bool) (s : State) (client : Client) :
  this_largeImageKey host = None ->
  rpc s = Some client ->
  sameFile host s = true ->
  setActivity host workspaceElapsedTime_ s
  = (Thrown (TypeError "Cannot read property 'largeImageKey' of undefined"), s, [])
  /\ forall fresh sent,
       onActivityTimer host fresh sent s
       = (Thrown (TypeError "Cannot read property 'largeImageKey' of undefined"),
          set_config fresh s, []).
Proof.
  intros Hthis Hrpc Hsame.
  assert (Hcall : forall w s', rpc s' = Some client -> sameFile host s' = true ->
            setActivity host w s'
            = (Thrown (TypeError "Cannot read property 'largeImageKey' of undefined"), s', [])).
  { intros w s' Hrpc' Hsame'. rewrite setActivity_unfold, Hrpc', Hsame'.
    unfold partialUpdate, bind. rewrite this_key_run, Hthis. reflexivity. }
  split; [ apply Hcall; assumption | ].
  intros fresh sent. unfold onActivityTimer. rewrite bind_modify.
  unfold bind. rewrite Hcall by assumption. reflexivity.
Qed.

Lemma same_file_call_throws_witness :
  this_largeImageKey Sample.editing = None
  /\ rpc Sample.ready = Some Sample.ipc
  /\ sameFile Sample.editing Sample.ready = true
  /\ setActivity Sample.editing true Sample.ready
     = (Thrown (TypeError "Cannot read property 'largeImageKey' of undefined"), Sample.ready, []).
Proof.
  split; [ reflexivity | split; [ reflexivity | split; [ reflexivity | ] ] ].
  apply (proj1 (same_file_call_throws Sample.editing true Sample.ready Sample.ipc
                  eq_refl eq_refl eq_refl)).
Defined.
